(** * The Page bridge of devtools-backend ([lib/backend/page.js])

    A [Page] sits between a device socket and a devtools-frontend
    WebSocket.  It keeps the list of enabled domains, routes inbound
    frontend requests ([handleIncomming]) and post-processes outbound
    messages ([send]).

    The development follows the class method by method.  Mutable fields of
    [this] live in a [Page] record, message objects that are passed by
    reference live in an object store, and every observable effect (log
    line, EventEmitter notification, middleware call, WebSocket
    transmission) is appended to a trace.

    [JSON.parse] and two modules the class imports are parameters here:
    [JSON.parse] is a partial function, the middleware registry a
    two-level map of functions on result payloads, and of the logger only
    whether it can be called as [this.log(..)] matters.  Log texts are not
    modelled. *)

From Stdlib Require Import ZArith Ascii String DecimalString.
From stdpp Require Import base list strings gmap.

#[local] Set Warnings "-register-all".

(** ** The JavaScript built-ins the class relies on *)

Module JS.

Local Open Scope string_scope.
Local Open Scope Z_scope.

(** Strings are sequences of code units, one [ascii] per unit; this is
    exact for ASCII text such as protocol method names. *)

(** [s.indexOf(pat)]: first position of [pat] in [s], or [-1]. *)
Definition indexOf (s pat : string) : Z :=
  match String.index 0 pat s with
  | Some n => Z.of_nat n
  | None => -1
  end.

(** Relative index resolution shared by [slice] and [splice]: a negative
    index counts from the end, and the result is clamped to [0..len]. *)
Definition clamp (len i : Z) : Z :=
  if i <? 0 then Z.max (len + i) 0 else Z.min i len.

(** [s.slice(start, end)] *)
Definition slice (s : string) (start stop : Z) : string :=
  let len := Z.of_nat (String.length s) in
  let from := clamp len start in
  let to := clamp len stop in
  String.substring (Z.to_nat from) (Z.to_nat (Z.max (to - from) 0)) s.

(** [s.slice(start)] *)
Definition slice_from (s : string) (start : Z) : string :=
  slice s start (Z.of_nat (String.length s)).

(** [arr.includes(x)] on an array of strings *)
Fixpoint includes (arr : list string) (x : string) : bool :=
  match arr with
  | [] => false
  | y :: rest => if String.eqb y x then true else includes rest x
  end.

(** [arr.indexOf(x)], counting from [i] for the head of [arr] *)
Fixpoint indexOf_from (i : Z) (arr : list string) (x : string) : Z :=
  match arr with
  | [] => -1
  | y :: rest => if String.eqb y x then i else indexOf_from (i + 1) rest x
  end.

Definition array_indexOf (arr : list string) (x : string) : Z :=
  indexOf_from 0 arr x.

(** [arr.splice(start, deleteCount)]: the array as it is left behind.
    [deleteCount] elements are removed from the resolved start on,
    clamped to what the array holds. *)
Definition splice {A} (arr : list A) (start deleteCount : Z) : list A :=
  let len := Z.of_nat (length arr) in
  let actualStart := clamp len start in
  let actualDeleteCount := Z.min (Z.max deleteCount 0) (len - actualStart) in
  take (Z.to_nat actualStart) arr
    ++ drop (Z.to_nat (actualStart + actualDeleteCount)) arr.

(** [arr.push(x)] *)
Definition push {A} (arr : list A) (x : A) : list A := arr ++ [x].

(** *** Values carried by protocol messages

    Numbers are restricted to integers (message ids).  An object is an
    association list in insertion order, which is the order
    [JSON.stringify] prints non-index keys in. *)
Inductive json : Type :=
| JUndefined
| JNull
| JBool (b : bool)
| JNum (n : Z)
| JStr (s : string)
| JArr (elems : list json)
| JObj (props : list (string * json)).

Abbreviation object := (list (string * json)).

(** [o[k]]: own property lookup; [undefined] when absent. *)
Fixpoint get (o : object) (k : string) : json :=
  match o with
  | [] => JUndefined
  | (k', v) :: rest => if String.eqb k' k then v else get rest k
  end.

(** [delete o[k]] *)
Fixpoint delete_prop (o : object) (k : string) : object :=
  match o with
  | [] => []
  | (k', v) :: rest =>
      if String.eqb k' k then delete_prop rest k
      else (k', v) :: delete_prop rest k
  end.

Definition keys (o : object) : list string := o.*1.

Definition number_to_string (n : Z) : string :=
  NilZero.string_of_int (Z.to_int n).

(** [String(v)], used when a value is a computed property key
    ([middleware[msg._domain]]). *)
Fixpoint to_string (v : json) : string :=
  match v with
  | JUndefined => "undefined"
  | JNull => "null"
  | JBool true => "true"
  | JBool false => "false"
  | JNum n => number_to_string n
  | JStr s => s
  | JArr elems =>
      String.concat ","
        (map (fun e => match e with
                       | JUndefined | JNull => ""
                       | _ => to_string e
                       end) elems)
  | JObj _ => "[object Object]"
  end.

(** *** [JSON.stringify] *)

Definition hex_digit (n : N) : ascii :=
  ascii_of_N (if (n <? 10)%N then 48 + n else 87 + n).

Definition dquote : ascii := "034".
Definition backslash : ascii := "092".

Definition escape_char (c : ascii) : string :=
  let n := N_of_ascii c in
  if (n =? 34)%N then String backslash (String dquote "")
  else if (n =? 92)%N then String backslash (String backslash "")
  else if (n =? 8)%N then String backslash "b"
  else if (n =? 12)%N then String backslash "f"
  else if (n =? 10)%N then String backslash "n"
  else if (n =? 13)%N then String backslash "r"
  else if (n =? 9)%N then String backslash "t"
  else if (n <? 32)%N then
    String backslash
      ("u00" ++ String (hex_digit (n / 16)) (String (hex_digit (n mod 16)) ""))
  else String c "".

Fixpoint escape (s : string) : string :=
  match s with
  | EmptyString => ""
  | String c rest => escape_char c ++ escape rest
  end.

Definition quote (s : string) : string :=
  String dquote (escape s ++ String dquote "").

(** [None] stands for the [undefined] that [JSON.stringify] returns for
    an [undefined] value: such a property is left out of an object and
    printed as [null] inside an array. *)
Fixpoint stringify_value (v : json) : option string :=
  match v with
  | JUndefined => None
  | JNull => Some "null"
  | JBool true => Some "true"
  | JBool false => Some "false"
  | JNum n => Some (number_to_string n)
  | JStr s => Some (quote s)
  | JArr elems =>
      Some ("[" ++ String.concat ","
                     (map (fun e => default "null" (stringify_value e)) elems)
                ++ "]")
  | JObj props =>
      Some ("{" ++ String.concat ","
                     ((fix members (ps : object) : list string :=
                         match ps with
                         | [] => []
                         | (k, x) :: rest =>
                             match stringify_value x with
                             | Some sx => (quote k ++ ":" ++ sx) :: members rest
                             | None => members rest
                             end
                         end) props)
                ++ "}")
  end.

(** [JSON.stringify(o)] for an object [o] *)
Definition JSON_stringify (o : object) : string :=
  default "" (stringify_value (JObj o)).

End JS.

Import JS.

Local Open Scope string_scope.
Local Open Scope list_scope.
Local Open Scope Z_scope.

(** ** State of a page and of the objects it is handed *)

(** [ws.readyState] *)
Inductive ReadyState : Type := CONNECTING | OPEN | CLOSING | CLOSED.

(** The callbacks the class registers on the socket.io namespace, on the
    WebSocket server and on the device socket. *)
Inductive listener : Type :=
| BoundConnect              (* ::this.connect *)
| BoundDisconnect           (* ::this.disconnect *)
| BoundConnectWebSocket     (* ::this.connectWebSocket *)
| BoundSend                 (* ::this.send *)
| DeviceHandshake           (* (msg) => { this.enable(msg.supportedDomains); this.log.info(..) } *)
| DeviceDebug.              (* (msg) => this.log.debug(msg) *)

(** The callbacks the class registers on the frontend WebSocket. *)
Inductive ws_listener : Type :=
| BoundHandleIncomming      (* ::this.handleIncomming *)
| MarkConnected             (* () => (this.isConnected = true) *)
| CloseThunk.               (* () => ::this.disconnectWebSocket *)

(** An event emitter the page subscribes to: the socket.io namespace, the
    device socket and the WebSocket server. *)
Record Emitter : Type := mkEmitter {
  handlers : list (string * listener)
}.

(** The devtools-frontend WebSocket. *)
Record WebSocket : Type := mkWebSocket {
  readyState : ReadyState;
  ws_handlers : list (string * ws_listener)
}.

(** [emitter.on(name, l)] *)
Definition on (e : Emitter) (name : string) (l : listener) : Emitter :=
  {| handlers := handlers e ++ [(name, l)] |}.

Definition ws_on (w : WebSocket) (name : string) (l : ws_listener) : WebSocket :=
  {| readyState := readyState w; ws_handlers := ws_handlers w ++ [(name, l)] |}.

(** The fields of [this]. [socket] and [ws] are optional because
    [disconnect] and [disconnectWebSocket] delete them. *)
Record Page : Type := mkPage {
  uuid : string;
  isConnected : bool;
  domains : list string;
  io : Emitter;
  socket : option Emitter;
  ws : option WebSocket
}.

Definition set_isConnected (b : bool) (p : Page) : Page :=
  {| uuid := uuid p; isConnected := b; domains := domains p;
     io := io p; socket := socket p; ws := ws p |}.

Definition set_domains (ds : list string) (p : Page) : Page :=
  {| uuid := uuid p; isConnected := isConnected p; domains := ds;
     io := io p; socket := socket p; ws := ws p |}.

Definition set_socket (s : option Emitter) (p : Page) : Page :=
  {| uuid := uuid p; isConnected := isConnected p; domains := domains p;
     io := io p; socket := s; ws := ws p |}.

Definition set_ws (w : option WebSocket) (p : Page) : Page :=
  {| uuid := uuid p; isConnected := isConnected p; domains := domains p;
     io := io p; socket := socket p; ws := w |}.

(** Message objects are passed by reference: a reference is an index into
    the store of live objects. *)
Definition ref : Type := nat.

Record State : Type := mkState {
  this : Page;
  heap : list object
}.

(** ** Effects *)

Inductive LogCall : Type :=
| LogDebug      (* this.log.debug(..) *)
| LogInfo       (* this.log.info(..) *)
| LogDirect.    (* this.log(..) *)

(** What a method does that the outside can observe, in order.  The
    listeners of the page's own notifications belong to other modules;
    a notification is recorded, and its listeners are taken not to call
    back into the page while it is delivered. *)
Inductive effect : Type :=
| Log (how : LogCall)
| Emit (name : json) (args : list json)           (* this.emit(name, ...args) *)
| Middleware (domain method : string) (arg : json) (* a server side handler ran *)
| WsSend (data : string).                         (* this.ws.send(data) *)

Inductive error : Type := TypeError | SyntaxError.

(** How a call ends: it returns, it throws, or the bound put on the
    depth of nested [send] calls is used up (the call stack overflows). *)
Inductive completion (A : Type) : Type :=
| Normal (a : A)
| Throw (e : error)
| Exhausted.

Arguments Normal {A} a.
Arguments Throw {A} e.
Arguments Exhausted {A}.

(** A method body: from the state before to the completion, the state
    after and the effects performed. *)
Definition M (A : Type) : Type := State -> completion A * State * list effect.

Definition ret {A} (a : A) : M A := fun s => (Normal a, s, []).

Definition bind {A B} (m : M A) (k : A -> M B) : M B :=
  fun s =>
    match m s with
    | (Normal a, s1, t1) =>
        match k a s1 with
        | (r, s2, t2) => (r, s2, t1 ++ t2)
        end
    | (Throw e, s1, t1) => (Throw e, s1, t1)
    | (Exhausted, s1, t1) => (Exhausted, s1, t1)
    end.

Declare Scope js_scope.
Delimit Scope js_scope with js.
Notation "x <- m ;; k" := (bind m (fun x => k))
  (at level 100, m at next level, right associativity) : js_scope.
Notation "m ;; k" := (bind m (fun _ => k))
  (at level 100, right associativity) : js_scope.
Local Open Scope js_scope.

Definition throw {A} (e : error) : M A := fun s => (Throw e, s, []).
Definition exhausted {A} : M A := fun s => (Exhausted, s, []).
Definition perform (e : effect) : M unit := fun s => (Normal tt, s, [e]).
Definition get_this : M Page := fun s => (Normal (this s), s, []).
Definition update_this (f : Page -> Page) : M unit :=
  fun s => (Normal tt, {| this := f (this s); heap := heap s |}, []).

(** Allocate an object literal. *)
Definition alloc (o : object) : M ref :=
  fun s => (Normal (length (heap s)),
            {| this := this s; heap := heap s ++ [o] |}, []).

(** Read the object behind a reference; a reference to nothing plays the
    part of an [undefined] argument, whose property access throws. *)
Definition deref (r : ref) : M object :=
  fun s => match heap s !! r with
           | Some o => (Normal o, s, [])
           | None => (Throw TypeError, s, [])
           end.

(** Mutate the object behind a reference in place. *)
Definition mutate (r : ref) (f : object -> object) : M unit :=
  fun s => match heap s !! r with
           | Some o => (Normal tt, {| this := this s; heap := <[r := f o]> (heap s) |}, [])
           | None => (Throw TypeError, s, [])
           end.

(** [list.forEach(f)] *)
Definition forEach {A} (l : list A) (f : A -> M unit) : M unit :=
  (fix each (l : list A) : M unit :=
     match l with
     | [] => ret tt
     | x :: rest => f x ;; each rest
     end) l.

(** [v.k] for a value [v] that is neither [undefined] nor [null]: an
    own-property lookup on an object; no other value of the model has the
    properties the class reads. *)
Definition property (v : json) (k : string) : json :=
  match v with
  | JObj o => get o k
  | _ => JUndefined
  end.

(** [v.k] for any value [v]: property access on [undefined] or [null]
    throws. *)
Definition prop (v : json) (k : string) : M json :=
  match v with
  | JUndefined | JNull => throw TypeError
  | _ => ret (property v k)
  end.

(** Truthiness of a value. *)
Definition truthy (v : json) : bool :=
  match v with
  | JUndefined | JNull | JBool false | JNum 0 | JStr "" => false
  | _ => true
  end.

(** ** The class *)

(** What a frontend WebSocket can notify its listeners of. *)
Inductive ws_event : Type :=
| Message (payload : json)              (* 'message' *)
| Open                                  (* 'open' *)
| Close (code : Z) (reason : string).   (* 'close' *)

Definition event_name (ev : ws_event) : string :=
  match ev with
  | Message _ => "message"
  | Open => "open"
  | Close _ _ => "close"
  end.

(** First argument a listener of the event is called with. *)
Definition first_argument (ev : ws_event) : json :=
  match ev with
  | Message payload => payload
  | Open => JUndefined
  | Close code _ => JNum code
  end.

(** What a callback hands back to the emitter that called it. *)
Inductive returned : Type :=
| RetUndefined
| RetBool (b : bool)
| RetBoundMethod (name : string).   (* a bound method, not called *)

(** The argument of [enable]: a domain or an array of them. *)
Inductive domain_arg : Type :=
| Domain (name : string)
| Domains (elems : list domain_arg).

(** What can happen to a page: one of its methods is called, by a
    listener the class registered or by another part of the application;
    the attached frontend WebSocket notifies its listeners; that
    WebSocket changes its readiness state. *)
Inductive action : Type :=
| CallConnect (socket : Emitter)
| CallDisconnect
| CallConnectWebSocket (w : WebSocket)
| CallDisconnectWebSocket
| CallEnable (domain : domain_arg)
| CallDisable (domain : string)
| CallHandleIncomming (payload : json)
| CallSend (msg : object)
| Notify (ev : ws_event)
| ReadyStateChange (r : ReadyState).

Section PageClass.

(** [JSON.parse]; [None] when it throws a [SyntaxError]. *)
Variable JSON_parse : string -> option json.

(** Modelled from the spec: the transformation registry imported from
    [../middleware], which is not part of this file.  It is keyed by
    domain name and then by method name, and a handler maps a result
    payload to a new result payload. *)
Variable middleware : gmap string (gmap string (json -> json)).

(** Whether the logger made by [logger('Page')] (imported from
    [../../logger]) can be called as a function itself, besides having
    the [debug] and [info] methods. *)
Variable log_is_function : bool.

(** [constructor (io, uuid)] *)
Definition new_Page (io : Emitter) (uuid : string) : Page :=
  {| uuid := uuid;
     isConnected := false;
     domains := [];
     io := on (on io "connection" BoundConnect) "disconnected" BoundDisconnect;
     socket := Some (on (mkEmitter []) "connection" BoundConnectWebSocket);
     ws := None |}.

(** [this.log(..)] *)
Definition log_direct : M unit :=
  if log_is_function then perform (Log LogDirect) else throw TypeError.

(** [connect (socket)] *)
Definition connect (socket : Emitter) : M unit :=
  perform (Log LogDebug) ;;
  update_this
    (set_socket
       (Some (on (on (on socket "result" BoundSend)
                     "connection" DeviceHandshake)
                 "debug" DeviceDebug))).

(** [disconnect ()] *)
Definition disconnect : M unit :=
  perform (Log LogDebug) ;;
  update_this (set_socket None).

(** [connectWebSocket (ws)] *)
Definition connectWebSocket (ws : WebSocket) : M unit :=
  perform (Log LogDebug) ;;
  update_this
    (set_ws
       (Some (ws_on (ws_on (ws_on ws "message" BoundHandleIncomming)
                           "open" MarkConnected)
                    "close" CloseThunk))).

(** [disconnectWebSocket ()] *)
Definition disconnectWebSocket : M unit :=
  update_this (set_isConnected false) ;;
  perform (Log LogDebug) ;;
  update_this (set_ws None).

(** The body of [enable] for a domain that is not an array. *)
Definition enable_domain (domain : string) : M unit :=
  page <- get_this ;;
  if includes (domains page) domain then log_direct
  else
    perform (Log LogInfo) ;;
    perform (Emit (JStr "domainEnabled") [JStr domain]) ;;
    update_this (fun p => set_domains (push (domains p) domain) p).

(** [enable (domain)] *)
Fixpoint enable (domain : domain_arg) : M unit :=
  match domain with
  | Domains elems => forEach elems enable
  | Domain name => enable_domain name
  end.

(** [disable (domain)] *)
Definition disable (domain : string) : M unit :=
  perform (Log LogInfo) ;;
  update_this
    (fun p =>
       let pos := array_indexOf (domains p) domain in
       set_domains (splice (domains p) pos (pos + 1)) p).

(** The listener [connect] puts on the device socket for its
    ['connection'] event:
    [(msg) => { this.enable(msg.supportedDomains); this.log.info(..) }].
    [status] only goes into the log text. *)
Definition device_connection_listener
    (status : string) (supportedDomains : domain_arg) : M unit :=
  enable supportedDomains ;;
  perform (Log LogInfo).

(** [isDomainSupported (msg)] *)
Definition isDomainSupported (msg : json) : M bool :=
  page <- get_this ;;
  match msg with
  | JStr name => ret (includes (domains page) name)
  | _ =>
      m <- prop msg "method" ;;
      match (if truthy m then m else JStr "") with
      | JStr method =>
          let splitPoint := indexOf method "." in
          ret (includes (domains page) (slice method 0 splitPoint))
      | JArr _ =>
          (* arrays have indexOf and slice too; the slice is a new
             array, which no element of [this.domains] is identical to *)
          ret false
      | _ => throw TypeError
      end
  end.

(** The handler registered for the [_domain]/[_method] pair of a
    message: [middleware[msg._domain] && middleware[msg._domain][msg._method]].
    A computed key is converted to a string first, an absent one to
    ["undefined"]. *)
Definition handler_for (msg : object) : option (json -> json) :=
  match middleware !! to_string (get msg "_domain") with
  | Some of_domain => of_domain !! to_string (get msg "_method")
  | None => None
  end.

(** [send (msg)].  [depth] bounds how deep [send] may call itself. *)
Fixpoint send (depth : nat) (msg : ref) : M unit :=
  match depth with
  | O => exhausted
  | S depth' =>
      page <- get_this ;;
      match ws page with
      | None => ret tt
      | Some w =>
          o <- deref msg ;;
          match handler_for o with
          | Some handler =>
              perform (Middleware (to_string (get o "_domain"))
                                  (to_string (get o "_method"))
                                  (get o "result")) ;;
              let result := handler (get o "result") in
              fresh <- alloc [("id", get o "id"); ("result", result)] ;;
              send depth' fresh
          | None =>
              mutate msg (fun o => delete_prop o "_domain") ;;
              mutate msg (fun o => delete_prop o "_method") ;;
              stripped <- deref msg ;;
              let msgString := JSON_stringify stripped in
              perform (Log LogDebug) ;;
              match readyState w with
              | OPEN => perform (WsSend msgString)
              | _ => ret tt
              end
          end
      end
  end.

(** [handleIncomming (payload)] *)
Definition handleIncomming (depth : nat) (payload : json) : M unit :=
  msg <- match payload with
         | JStr text =>
             match JSON_parse text with
             | Some v => ret v
             | None => throw SyntaxError
             end
         | _ => ret payload
         end ;;
  m <- prop msg "method" ;;
  match m with
  | JStr full =>
      let splitPoint := indexOf full "." in
      let domain := slice full 0 splitPoint in
      let method := slice_from full (splitPoint + 1) in
      supported <- isDomainSupported (JStr domain) ;;
      if String.eqb method "enable" && supported then
        enable (Domain domain) ;;
        fresh <- alloc [("id", property msg "id"); ("params", JObj [])] ;;
        send depth fresh
      else if String.eqb method "disable" then
        disable domain ;;
        perform (Emit (JObj [("id", property msg "id"); ("params", JObj [])]) [])
      else
        enabled <- isDomainSupported msg ;;
        if negb enabled then ret tt
        else
          perform (Emit (JStr "incomming")
                     [JObj [("method", JStr method); ("domain", JStr domain);
                            ("msg", msg)]])
  | JArr _ =>
      (* [msg.method] is an array: [indexOf] and [slice] work on it,
         neither slice is identical to 'enable' or 'disable', and
         [isDomainSupported (msg)] is false *)
      ret tt
  | _ => throw TypeError
  end.

(** Run one listener of the frontend WebSocket. *)
Definition call_listener (depth : nat) (l : ws_listener) (arg : json) : M returned :=
  match l with
  | BoundHandleIncomming => handleIncomming depth arg ;; ret RetUndefined
  | MarkConnected => update_this (set_isConnected true) ;; ret (RetBool true)
  | CloseThunk => ret (RetBoundMethod "disconnectWebSocket")
  end.

(** The frontend WebSocket [w] emits [ev]: every listener registered
    under the event's name is called, in registration order, and what it
    returns is dropped. *)
Definition ws_emit (depth : nat) (w : WebSocket) (ev : ws_event) : M unit :=
  forEach (filter (fun h => h.1 = event_name ev) (ws_handlers w))
          (fun h => call_listener depth h.2 (first_argument ev) ;; ret tt).

(** One [action] on the page.  [send] is handed a reference to the
    caller's object. *)
Definition act (depth : nat) (a : action) : M unit :=
  match a with
  | CallConnect socket => connect socket
  | CallDisconnect => disconnect
  | CallConnectWebSocket w => connectWebSocket w
  | CallDisconnectWebSocket => disconnectWebSocket
  | CallEnable domain => enable domain
  | CallDisable domain => disable domain
  | CallHandleIncomming payload => handleIncomming depth payload
  | CallSend msg => (r <- alloc msg ;; send depth r)
  | Notify ev =>
      page <- get_this ;;
      match ws page with
      | Some w => ws_emit depth w ev
      | None => ret tt
      end
  | ReadyStateChange r =>
      update_this
        (fun p => set_ws (option_map
                            (fun w => {| readyState := r;
                                         ws_handlers := ws_handlers w |})
                            (ws p)) p)
  end.

(** The states a page goes through, from its construction on.  A call
    that throws still leaves the state it reached. *)
Inductive reachable : State -> Prop :=
| reachable_new (io : Emitter) (uuid : string) :
    reachable {| this := new_Page io uuid; heap := [] |}
| reachable_act (s : State) (depth : nat) (a : action) :
    reachable s -> reachable (act depth a s).1.2.

End PageClass.

(** ** Vocabulary of the statements *)

(** The data transmitted on the frontend WebSocket, in order. *)
Definition wire (t : list effect) : list string :=
  omap (fun e => match e with WsSend data => Some data | _ => None end) t.

(** The EventEmitter notifications, in order. *)
Definition notifications (t : list effect) : list (json * list json) :=
  omap (fun e => match e with Emit name args => Some (name, args) | _ => None end) t.

(** Number of times [d] occurs in a list of domains. *)
Definition occurrences (d : string) (l : list string) : nat :=
  length (filter (fun x => x = d) l).

(** The handler a registry holds under a pair of keys. *)
Definition registered (middleware : gmap string (gmap string (json -> json)))
    (d m : string) : option (json -> json) :=
  match middleware !! d with
  | Some of_domain => of_domain !! m
  | None => None
  end.

(** An inbound frame [payload] carries the message object [msg]: it is
    the object itself, or text that [JSON.parse] decodes to it. *)
Definition carries (JSON_parse : string -> option json)
    (payload : json) (msg : object) : Prop :=
  payload = JObj msg \/
  exists text, payload = JStr text /\ JSON_parse text = Some (JObj msg).

(** The two halves of a dotted method name, as [handleIncomming] cuts it. *)
Definition domain_of (full : string) : string :=
  slice full 0 (indexOf full ".").

Definition method_of (full : string) : string :=
  slice_from full (indexOf full "." + 1).

(** A method body keeps a property of the page, however it completes. *)
Definition keeps {A} (I : Page -> Prop) (m : M A) : Prop :=
  forall s : State, I (this s) -> I (this (m s).1.2).

(** A method body transmits, on the frontend WebSocket, only data that
    satisfies [Q]. *)
Definition transmits_only (Q : string -> Prop) {A} (m : M A) : Prop :=
  forall (s : State) (data : string), WsSend data ∈ (m s).2 -> Q data.

(** A method body that, run on a page without a frontend WebSocket,
    transmits nothing and leaves the page without one. *)
Definition silent_while_detached {A} (m : M A) : Prop :=
  forall s : State,
    ws (this s) = None ->
    wire (m s).2 = [] /\ ws (this (m s).1.2) = None.

(** No domain is listed twice in [this.domains]. *)
Definition unique_domains (p : Page) : Prop := NoDup (domains p).

(** Transmitted data that is the serialisation of an object without the
    private routing fields. *)
Definition public_payload (data : string) : Prop :=
  exists o : object,
    data = JSON_stringify o /\ ("_domain" ∉ keys o) /\ ("_method" ∉ keys o).

(** The outcome [x] of a continuation, with the effects [t] performed
    before it put in front. *)
Definition after {A} (t : list effect) (x : completion A * State * list effect)
    : completion A * State * list effect :=
  (x.1.1, x.1.2, t ++ x.2).

(** A message object with its private routing fields deleted. *)
Definition stripped (o : object) : object :=
  delete_prop (delete_prop o "_domain") "_method".

(** ** Sample data *)

Module Sample.

(** A [JSON.parse] that rejects every text; the samples pass objects. *)
Definition no_parse : string -> option json := fun _ => None.

Definition no_middleware : gmap string (gmap string (json -> json)) := ∅.

(** A registry with one handler, [Network.getCookies]. *)
Definition wrap (result : json) : json := JObj [("cookies", result)].

Definition one_handler : gmap string (gmap string (json -> json)) :=
  {[ "Network" := {[ "getCookies" := wrap ]} ]}.

(** A registry that has a handler under the keys an absent
    [_domain]/[_method] pair is looked up with. *)
Definition undefined_handler : gmap string (gmap string (json -> json)) :=
  {[ "undefined" := {[ "undefined" := wrap ]} ]}.

Definition fresh_page : Page := new_Page (mkEmitter []) "page-1".

Definition with_domains (ds : list string) (p : Page) : State :=
  {| this := set_domains ds p; heap := [] |}.

(** A page that [connectWebSocket] was called on, with a WebSocket in
    readiness state [r] that had no listener yet. *)
Definition attached (r : ReadyState) (ds : list string) : State :=
  (connectWebSocket (mkWebSocket r []) (with_domains ds fresh_page)).1.2.

(** That WebSocket, with the three listeners [connectWebSocket] put on it. *)
Definition frontend (r : ReadyState) : WebSocket :=
  {| readyState := r;
     ws_handlers := [("message", BoundHandleIncomming);
                     ("open", MarkConnected);
                     ("close", CloseThunk)] |}.

(** The page after its open WebSocket has notified ['open']. *)
Definition opened : State :=
  (ws_emit no_parse no_middleware true 1 (frontend OPEN) Open
     (attached OPEN [])).1.2.

Definition three_domains : list string := ["Network"; "Page"; "CSS"].

Definition enable_request : object :=
  [("id", JNum 1); ("method", JStr "Network.enable")].

Definition disable_request : object :=
  [("id", JNum 7); ("method", JStr "Page.disable")].

Definition loadingFinished : object :=
  [("id", JNum 2); ("method", JStr "Network.loadingFinished")].

Definition private_result : object :=
  [("id", JNum 5); ("result", JObj [("ok", JBool true)]);
   ("_domain", JStr "X"); ("_method", JStr "Y")].

Definition cookies_result : object :=
  [("id", JNum 9); ("result", JArr []);
   ("_domain", JStr "Network"); ("_method", JStr "getCookies")].

(** A state whose store holds one message object, at reference [0]. *)
Definition holding (o : object) (s : State) : State :=
  {| this := this s; heap := [o] |}.

End Sample.

(** ** Arrays: [includes], [indexOf], [splice] *)

Lemma includes_spec (l : list string) (x : string) :
  includes l x = true <-> x ∈ l.
Proof.
  induction l as [|y l IH]; simpl.
  - split; [discriminate | intros H; inversion H].
  - destruct (String.eqb_spec y x) as [->|Hne].
    + split; [intros _; left | reflexivity].
    + rewrite IH. split; [intros H; by right |].
      intros H. inversion H; subst; [congruence | assumption].
Qed.

Lemma includes_false (l : list string) (x : string) :
  includes l x = false <-> x ∉ l.
Proof.
  rewrite <- includes_spec. destruct (includes l x); split; try done.
Qed.

Lemma indexOf_from_absent (i : Z) (l : list string) (x : string) :
  x ∉ l -> indexOf_from i l x = -1.
Proof.
  revert i. induction l as [|y l IH]; intros i Hx; simpl; [reflexivity|].
  destruct (String.eqb_spec y x) as [->|Hne].
  - exfalso. apply Hx. left.
  - apply IH. intros H. apply Hx. by right.
Qed.

(** When [x] is in the array, [indexOf] is the position of its first
    occurrence. *)
Lemma indexOf_from_present (i : Z) (l : list string) (x : string) :
  x ∈ l ->
  exists n : nat,
    indexOf_from i l x = i + Z.of_nat n /\ l !! n = Some x /\ x ∉ take n l.
Proof.
  revert i. induction l as [|y l IH]; intros i Hx; [inversion Hx|].
  simpl. destruct (String.eqb_spec y x) as [->|Hne].
  - exists 0%nat. split; [lia|]. split; [reflexivity|]. simpl. inversion 1.
  - assert (Hin : x ∈ l) by (inversion Hx; subst; [congruence | assumption]).
    destruct (IH (i + 1) Hin) as (n & Hidx & Hlook & Hfirst).
    exists (S n). split; [lia|]. split; [exact Hlook|].
    simpl. intros H. inversion H; subst; [congruence | by apply Hfirst].
Qed.

(** [splice(-1, 0)], which is what [disable] calls for an absent domain,
    removes nothing. *)
Lemma splice_minus_one {A} (l : list A) : splice l (-1) (-1 + 1) = l.
Proof.
  unfold splice, clamp.
  change (-1 <? 0) with true. change (-1 + 1) with 0. cbv iota.
  set (start := Z.max (Z.of_nat (length l) + -1) 0).
  replace (start + Z.min (Z.max 0 0) (Z.of_nat (length l) - start))
    with start by lia.
  apply take_drop.
Qed.

(** [splice(n, n + 1)] at a position inside the array removes the [n + 1]
    elements from position [n] on, not the single element there. *)
Lemma splice_pos_pos_plus_one {A} (l : list A) (n : nat) :
  (n < length l)%nat ->
  splice l (Z.of_nat n) (Z.of_nat n + 1) = take n l ++ drop (2 * n + 1) l.
Proof.
  intros Hn. unfold splice, clamp.
  destruct (Z.ltb_spec (Z.of_nat n) 0) as [?|_]; [lia|].
  replace (Z.min (Z.of_nat n) (Z.of_nat (length l))) with (Z.of_nat n) by lia.
  rewrite Nat2Z.id. f_equal.
  destruct (Nat.le_gt_cases (2 * n + 1) (length l)) as [Hle|Hgt].
  - f_equal. lia.
  - rewrite (drop_ge l (2 * n + 1)) by lia. apply drop_ge. lia.
Qed.

(** ** Dotted method names *)

Lemma append_cons (c : ascii) (a b : string) :
  String c a +:+ b = String c (a +:+ b).
Proof. reflexivity. Qed.

Lemma index_cons (pat : string) (c : ascii) (s : string) :
  String.index 0 pat (String c s)
  = if String.prefix pat (String c s) then Some 0%nat
    else match String.index 0 pat s with
         | Some n => Some (S n)
         | None => None
         end.
Proof. reflexivity. Qed.

Lemma prefix_dot (c : ascii) (rest : string) :
  String.prefix "." (String c rest) = true <-> c = "."%char.
Proof.
  rewrite String.prefix_correct.
  destruct rest; simpl; (split; [intros [= ->] | intros ->]; reflexivity).
Qed.

(** In ["<D>.<m>"], where [D] has no dot, the first dot is the one after
    [D]. *)
Lemma indexOf_dotted (D m : string) :
  indexOf D "." = -1 ->
  indexOf (D +:+ "." +:+ m) "." = Z.of_nat (String.length D).
Proof.
  unfold indexOf. intros HD.
  assert (Hnone : String.index 0 "." D = None)
    by (destruct (String.index 0 "." D); [lia | reflexivity]).
  clear HD.
  enough (String.index 0 "." (D +:+ "." +:+ m) = Some (String.length D)) as ->
      by reflexivity.
  induction D as [|c D IH].
  - change ("" +:+ "." +:+ m) with (String "." m).
    by rewrite index_cons, (proj2 (prefix_dot "." m) eq_refl).
  - rewrite append_cons, index_cons. rewrite index_cons in Hnone.
    destruct (String.prefix "." (String c D)) eqn:Hc; [discriminate|].
    destruct (String.prefix "." (String c (D +:+ "." +:+ m))) eqn:Hp.
    { apply prefix_dot in Hp. apply (prefix_dot c D) in Hp. congruence. }
    destruct (String.index 0 "." D) eqn:HD; [discriminate|].
    by rewrite IH.
Qed.

Lemma substring_prefix (D rest : string) :
  substring 0 (String.length D) (D +:+ rest) = D.
Proof.
  induction D as [|c D IH].
  - by destruct rest.
  - rewrite append_cons. simpl. by rewrite IH.
Qed.

Lemma substring_whole (s : string) : substring 0 (String.length s) s = s.
Proof. induction s as [|c s IH]; simpl; [reflexivity | by rewrite IH]. Qed.

Lemma substring_suffix (D rest : string) :
  substring (String.length D) (String.length rest) (D +:+ rest) = rest.
Proof.
  induction D as [|c D IH].
  - apply substring_whole.
  - rewrite append_cons. exact IH.
Qed.

Lemma length_append (a b : string) :
  String.length (a +:+ b) = (String.length a + String.length b)%nat.
Proof.
  induction a as [|c a IH]; [reflexivity|].
  rewrite append_cons. simpl. by rewrite IH.
Qed.

Lemma append_assoc (a b c : string) : a +:+ b +:+ c = (a +:+ b) +:+ c.
Proof.
  induction a as [|x a IH]; [reflexivity|].
  rewrite !append_cons. by rewrite IH.
Qed.

(** A method name of the form ["<D>.<m>"], with no dot in [D], is cut
    into [D] and [m]. *)
Lemma dotted_method_name (D m : string) :
  indexOf D "." = -1 ->
  domain_of (D +:+ "." +:+ m) = D /\ method_of (D +:+ "." +:+ m) = m.
Proof.
  intros HD. unfold domain_of, method_of, slice_from, slice, clamp.
  rewrite (indexOf_dotted D m HD), !length_append.
  change (String.length ".") with 1%nat.
  set (d := String.length D). set (k := String.length m).
  repeat match goal with
         | |- context [?a <? 0] => destruct (Z.ltb_spec a 0); [lia|]
         end.
  split.
  - replace (Z.to_nat (Z.min 0 _)) with 0%nat by lia.
    replace (Z.to_nat _) with d by lia.
    apply substring_prefix.
  - replace (Z.to_nat (Z.min (Z.of_nat d + 1) _))
      with (String.length (D +:+ ".")) by (rewrite length_append; simpl; lia).
    replace (Z.to_nat _) with k by lia.
    rewrite append_assoc. apply substring_suffix.
Qed.

(** ** Message objects: [get], [delete] *)

Lemma get_absent (o : object) (k : string) : k ∉ keys o -> get o k = JUndefined.
Proof.
  unfold keys. induction o as [|[k' v] o IH]; simpl; [done|].
  intros Hk. apply not_elem_of_cons in Hk as [Hhead Hrest].
  destruct (String.eqb_spec k' k) as [->|Hne]; [done | by apply IH].
Qed.

Lemma delete_prop_not_key (o : object) (k : string) : k ∉ keys (delete_prop o k).
Proof.
  unfold keys. induction o as [|[k' v] o IH]; simpl; [inversion 1|].
  destruct (String.eqb_spec k' k) as [->|Hne]; [exact IH|].
  intros H. apply elem_of_cons in H as [H|H]; [simpl in H; congruence | by apply IH].
Qed.

Lemma delete_prop_keeps_absent (o : object) (k k' : string) :
  k' ∉ keys o -> k' ∉ keys (delete_prop o k).
Proof.
  unfold keys. induction o as [|[k0 v] o IH]; simpl; [done|].
  intros Hk'. apply not_elem_of_cons in Hk' as [Hhead Hrest].
  destruct (String.eqb_spec k0 k) as [->|Hne]; [by apply IH|].
  apply not_elem_of_cons. split; [exact Hhead | by apply IH].
Qed.

Lemma stripped_has_no_private_fields (o : object) :
  ("_domain" ∉ keys (stripped o)) /\ ("_method" ∉ keys (stripped o)).
Proof.
  unfold stripped. split.
  - apply delete_prop_keeps_absent, delete_prop_not_key.
  - apply delete_prop_not_key.
Qed.

(** ** Laws of the method-body monad *)

Lemma bind_unit {A B} (a : A) (k : A -> M B) (s : State) :
  bind (ret a) k s = k a s.
Proof. unfold bind, ret. by destruct (k a s) as [[r s'] t]. Qed.

Lemma bind_pure {A B} (m : M A) (a : A) (k : A -> M B) (s : State) :
  m s = (Normal a, s, []) -> bind m k s = k a s.
Proof. intros Hm. unfold bind. rewrite Hm. by destruct (k a s) as [[r s'] t]. Qed.

Lemma bind_normal {A B} (m : M A) (a : A) (k : A -> M B)
    (s s1 : State) (t : list effect) :
  m s = (Normal a, s1, t) -> bind m k s = after t (k a s1).
Proof.
  intros Hm. unfold bind, after. rewrite Hm. by destruct (k a s1) as [[r s'] t'].
Qed.

Lemma bind_get_this {B} (k : Page -> M B) (s : State) :
  bind get_this k s = k (this s) s.
Proof. by apply bind_pure. Qed.

Lemma bind_perform {B} (e : effect) (k : unit -> M B) (s : State) :
  bind (perform e) k s = after [e] (k tt s).
Proof. unfold bind, perform, after. by destruct (k tt s) as [[r s'] t]. Qed.

Lemma bind_update_this {B} (f : Page -> Page) (k : unit -> M B) (s : State) :
  bind (update_this f) k s = k tt {| this := f (this s); heap := heap s |}.
Proof. unfold bind, update_this. by destruct (k tt _) as [[r s'] t]. Qed.

Lemma bind_alloc {B} (o : object) (k : ref -> M B) (s : State) :
  bind (alloc o) k s
  = k (length (heap s)) {| this := this s; heap := heap s ++ [o] |}.
Proof. unfold bind, alloc. by destruct (k _ _) as [[r s'] t]. Qed.

Lemma bind_deref {B} (r : ref) (o : object) (k : object -> M B) (s : State) :
  heap s !! r = Some o -> bind (deref r) k s = k o s.
Proof. intros Hr. apply bind_pure. unfold deref. by rewrite Hr. Qed.

Lemma bind_deref_dangling {B} (r : ref) (k : object -> M B) (s : State) :
  heap s !! r = None -> bind (deref r) k s = (Throw TypeError, s, []).
Proof. intros Hr. unfold bind, deref. by rewrite Hr. Qed.

Lemma bind_mutate {B} (r : ref) (o : object) (f : object -> object)
    (k : unit -> M B) (s : State) :
  heap s !! r = Some o ->
  bind (mutate r f) k s
  = k tt {| this := this s; heap := <[r := f o]> (heap s) |}.
Proof.
  intros Hr. unfold bind, mutate. rewrite Hr. by destruct (k _ _) as [[c s'] t].
Qed.

(** ** [disable] *)

Lemma set_domains_same (p : Page) : set_domains (domains p) p = p.
Proof. by destruct p. Qed.

Lemma state_eta (s : State) : {| this := this s; heap := heap s |} = s.
Proof. by destruct s. Qed.

Lemma disable_run (d : string) (s : State) :
  disable d s =
  (Normal tt,
   {| this := set_domains
                (splice (domains (this s))
                        (array_indexOf (domains (this s)) d)
                        (array_indexOf (domains (this s)) d + 1))
                (this s);
      heap := heap s |},
   [Log LogInfo]).
Proof. reflexivity. Qed.

(** Disabling a domain that is not enabled changes nothing. *)
Lemma disable_absent (d : string) (s : State) :
  d ∉ domains (this s) -> disable d s = (Normal tt, s, [Log LogInfo]).
Proof.
  intros Hd. rewrite disable_run. unfold array_indexOf.
  rewrite (indexOf_from_absent _ _ _ Hd), splice_minus_one.
  by rewrite set_domains_same, state_eta.
Qed.

(** Disabling an enabled domain at position [n] removes the [n + 1]
    entries from its position on. *)
Lemma disable_present (d : string) (s : State) :
  d ∈ domains (this s) ->
  exists n : nat,
    (domains (this s) !! n = Some d) /\
    (d ∉ take n (domains (this s))) /\
    domains (this (disable d s).1.2)
    = take n (domains (this s)) ++ drop (2 * n + 1) (domains (this s)).
Proof.
  intros Hd.
  destruct (indexOf_from_present 0 _ _ Hd) as (n & Hidx & Hlook & Hfirst).
  exists n. split; [exact Hlook|]. split; [exact Hfirst|].
  rewrite disable_run. simpl. unfold array_indexOf. rewrite Hidx.
  rewrite Z.add_0_l. apply splice_pos_pos_plus_one.
  by apply lookup_lt_Some in Hlook.
Qed.

(** Only for the first entry of the list is that the single-entry removal. *)
Lemma disable_head (d : string) (rest : list string) (p : Page) (h : list object) :
  domains (this (disable d {| this := set_domains (d :: rest) p; heap := h |}).1.2)
  = rest.
Proof.
  rewrite disable_run. simpl. unfold array_indexOf. simpl.
  rewrite String.eqb_refl.
  exact (splice_pos_pos_plus_one (d :: rest) 0 ltac:(simpl; lia)).
Qed.

(** A list without duplicates stays so, and the domain is gone from it. *)
Lemma disable_NoDup (d : string) (s : State) :
  NoDup (domains (this s)) ->
  NoDup (domains (this (disable d s).1.2)) /\
  d ∉ domains (this (disable d s).1.2).
Proof.
  intros Hnd. destruct (decide (d ∈ domains (this s))) as [Hin|Hout].
  - destruct (disable_present d s Hin) as (n & Hlook & Hfirst & ->).
    set (l := domains (this s)) in *.
    assert (Hsplit : l = take n l ++ d :: drop (S n) l).
    { rewrite <- (take_drop n l) at 1. f_equal.
      by apply drop_S. }
    assert (Hsub : drop (2 * n + 1) l = drop n (drop (S n) l)).
    { rewrite drop_drop. f_equal. lia. }
    rewrite Hsplit in Hnd.
    apply NoDup_app in Hnd as (Hnd1 & Hdisj & Hnd2).
    apply NoDup_cons in Hnd2 as (Hd2 & Hnd2).
    rewrite Hsub. split.
    + apply NoDup_app. split; [exact Hnd1|]. split.
      * intros x Hx Hx'. apply (Hdisj x Hx). right.
        exact (subseteq_drop n (drop (S n) l) x Hx').
      * exact (sublist_NoDup _ _ Hnd2 (sublist_drop _ _)).
    + rewrite elem_of_app. intros [H|H]; [by apply Hfirst|].
      apply Hd2. exact (subseteq_drop n (drop (S n) l) d H).
  - rewrite (disable_absent d s Hout). by split.
Qed.

(** Whenever the domain is neither the first nor the last entry, the entry
    after it is lost with it. *)
Lemma disable_loses_the_entry_after_the_match
    (before : list string) (d next : string) (rest : list string)
    (p : Page) (h : list object) :
  before <> [] ->
  NoDup (before ++ d :: next :: rest) ->
  next ∉ domains (this (disable d {| this := set_domains (before ++ d :: next :: rest) p;
                                     heap := h |}).1.2).
Proof.
  intros Hne Hnd.
  set (s := {| this := set_domains (before ++ d :: next :: rest) p; heap := h |}).
  assert (Hin : d ∈ domains (this s)) by (simpl; apply elem_of_app; right; left).
  destruct (disable_present d s Hin) as (n & Hlook & _ & ->).
  simpl in Hlook |- *.
  assert (n = length before) as ->.
  { eapply NoDup_lookup; [exact Hnd | exact Hlook | by apply list_lookup_middle]. }
  rewrite take_app_length.
  replace (length before + (length before + 0) + 1)%nat
    with (length before + S (length before))%nat by lia.
  rewrite drop_app_add. simpl.
  apply NoDup_app in Hnd as (_ & Hdisj & Htail).
  apply NoDup_cons in Htail as (_ & Htail).
  apply NoDup_cons in Htail as (Hnext & _).
  apply not_elem_of_app. split.
  - intros Hb. apply (Hdisj next Hb). right. left.
  - destruct before as [|b before]; [done|]. simpl.
    intros Hr. apply Hnext. exact (subseteq_drop _ _ _ Hr).
Qed.

(** C1: [disable] is meant to remove exactly the matching entry and keep
    every other entry in order.  With ["Network"; "Page"; "CSS"] enabled,
    [disable("Page")] calls [splice(1, 2)], which removes ["CSS"] as well:
    only ["Network"] is left, where single-entry removal leaves
    ["Network"; "CSS"]. *)
Theorem disable_removes_the_entries_after_the_match :
  domains (this (disable "Page"
                   (Sample.with_domains Sample.three_domains Sample.fresh_page)).1.2)
  = ["Network"].
Proof. reflexivity. Qed.

(** ** [enable] *)

Lemma enable_domain_present (log_is_function : bool) (d : string) (s : State) :
  d ∈ domains (this s) ->
  enable_domain log_is_function d s =
  if log_is_function then (Normal tt, s, [Log LogDirect])
  else (Throw TypeError, s, []).
Proof.
  intros Hd. apply includes_spec in Hd.
  unfold enable_domain, bind, get_this, log_direct. simpl. rewrite Hd.
  by destruct log_is_function.
Qed.

Lemma enable_domain_absent (log_is_function : bool) (d : string) (s : State) :
  d ∉ domains (this s) ->
  enable_domain log_is_function d s =
  (Normal tt,
   {| this := set_domains (domains (this s) ++ [d]) (this s); heap := heap s |},
   [Log LogInfo; Emit (JStr "domainEnabled") [JStr d]]).
Proof.
  intros Hd. apply includes_false in Hd.
  unfold enable_domain, bind, get_this. simpl. by rewrite Hd.
Qed.

Lemma occurrences_absent (d : string) (l : list string) :
  d ∉ l -> occurrences d l = 0%nat.
Proof.
  unfold occurrences. induction l as [|x l IH]; intros Hd; [reflexivity|].
  rewrite filter_cons. destruct (decide (x = d)) as [->|Hne].
  - exfalso. apply Hd. left.
  - apply IH. intros H. apply Hd. by right.
Qed.

Lemma occurrences_NoDup (d : string) (l : list string) :
  NoDup l -> d ∈ l -> occurrences d l = 1%nat.
Proof.
  unfold occurrences. induction 1 as [|x l Hx Hnd IH]; intros Hd; [inversion Hd|].
  rewrite filter_cons. destruct (decide (x = d)) as [->|Hne].
  - simpl. f_equal. by apply occurrences_absent.
  - apply IH. inversion Hd; subst; [congruence | assumption].
Qed.

(** [enable] keeps the list free of duplicates, whatever the completion. *)
Lemma enable_domain_NoDup (log_is_function : bool) (d : string) (s : State) :
  NoDup (domains (this s)) ->
  NoDup (domains (this (enable_domain log_is_function d s).1.2)).
Proof.
  intros Hnd. destruct (decide (d ∈ domains (this s))) as [Hin|Hout].
  - rewrite (enable_domain_present _ _ _ Hin). by destruct log_is_function.
  - rewrite (enable_domain_absent _ _ _ Hout). simpl.
    apply NoDup_app. split; [exact Hnd|]. split.
    + intros x Hx Hx'. apply list_elem_of_singleton in Hx'. by subst.
    + apply NoDup_singleton.
Qed.

(** C6: [enable] is idempotent.  On a list of domains without duplicates,
    after [enable(D)] is called twice the list holds [D] exactly once, and
    the second call leaves the state as it was and emits no notification;
    the same holds for a single call when [D] is enabled already. *)
Theorem enable_is_idempotent (log_is_function : bool) (d : string) (s : State) :
  NoDup (domains (this s)) ->
  let first := enable log_is_function (Domain d) s in
  let second := enable log_is_function (Domain d) first.1.2 in
  (occurrences d (domains (this second.1.2)) = 1%nat /\
   second.1.2 = first.1.2 /\
   notifications second.2 = []) /\
  (d ∈ domains (this s) ->
   occurrences d (domains (this first.1.2)) = 1%nat /\
   first.1.2 = s /\
   notifications first.2 = []).
Proof.
  intros Hnd. cbn zeta. simpl enable.
  assert (Hagain : forall s0 : State,
             NoDup (domains (this s0)) -> d ∈ domains (this s0) ->
             occurrences d (domains (this (enable_domain log_is_function d s0).1.2))
             = 1%nat /\
             (enable_domain log_is_function d s0).1.2 = s0 /\
             notifications (enable_domain log_is_function d s0).2 = []).
  { intros s0 Hnd0 Hin0. rewrite (enable_domain_present _ _ _ Hin0).
    destruct log_is_function; simpl;
      (split; [by apply occurrences_NoDup | by split]). }
  split; [|by apply Hagain].
  apply Hagain; [by apply enable_domain_NoDup|].
  destruct (decide (d ∈ domains (this s))) as [Hin|Hout].
  - rewrite (enable_domain_present _ _ _ Hin). by destruct log_is_function.
  - rewrite (enable_domain_absent _ _ _ Hout). simpl.
    apply elem_of_app. right. left.
Qed.

Lemma enable_is_idempotent_witness :
  occurrences "Network"
    (domains (this (enable true (Domain "Network")
                      (enable true (Domain "Network")
                         (Sample.with_domains [] Sample.fresh_page)).1.2).1.2))
  = 1%nat.
Proof.
  pose proof (@NoDup_nil_2 string) as Hnd.
  exact (proj1 (proj1 (enable_is_idempotent true "Network"
                         (Sample.with_domains [] Sample.fresh_page) Hnd))).
Defined.

(** ** Frontend WebSocket notifications *)

Lemma disconnectWebSocket_run (s : State) :
  disconnectWebSocket s =
  (Normal tt,
   {| this := set_ws None (set_isConnected false (this s)); heap := heap s |},
   [Log LogDebug]).
Proof. reflexivity. Qed.

(** A ['close'] listener of the kind [connectWebSocket] registers builds
    the bound method and hands it back; nothing is called. *)
Lemma close_listeners_do_nothing
    (JSON_parse : string -> option json)
    (middleware : gmap string (gmap string (json -> json)))
    (log_is_function : bool) (depth : nat)
    (w : WebSocket) (code : Z) (reason : string) (s : State) :
  (forall l, ("close", l) ∈ ws_handlers w -> l = CloseThunk) ->
  ws_emit JSON_parse middleware log_is_function depth w (Close code reason) s
  = (Normal tt, s, []).
Proof.
  unfold ws_emit. simpl event_name. simpl first_argument.
  induction (ws_handlers w) as [|[name l] hs IH]; intros Hall; [reflexivity|].
  rewrite filter_cons. simpl. destruct (decide (name = "close")) as [->|Hne].
  - rewrite (Hall l) by left. unfold forEach in *.
    unfold bind at 1. simpl. rewrite IH; [reflexivity|].
    intros l' Hl'. apply Hall. by right.
  - apply IH. intros l' Hl'. apply Hall. by right.
Qed.

(** C3: a ['close'] notification of the attached frontend WebSocket is
    meant to clear [this.ws] and reset [this.isConnected].  The listener
    registered for it, [() => ::this.disconnectWebSocket], only builds the
    bound method: after [connectWebSocket] and an ['open'] notification,
    a ['close'] notification leaves the WebSocket attached and the flag
    set. *)
Theorem close_notification_leaves_the_channel_attached :
  ws (this Sample.opened) = Some (Sample.frontend OPEN) /\
  isConnected (this Sample.opened) = true /\
  ws_emit Sample.no_parse Sample.no_middleware true 1
          (Sample.frontend OPEN) (Close 1000 "") Sample.opened
  = (Normal tt, Sample.opened, []).
Proof. repeat split. Qed.

(** What the notification was meant to trigger does clear both. *)
Lemma disconnectWebSocket_clears_the_channel (s : State) :
  ws (this (disconnectWebSocket s).1.2) = None /\
  isConnected (this (disconnectWebSocket s).1.2) = false.
Proof. by rewrite disconnectWebSocket_run. Qed.

(** After [connectWebSocket] on a WebSocket without ['close'] listeners of
    its own, no ['close'] notification changes anything. *)
Lemma close_after_connectWebSocket
    (JSON_parse : string -> option json)
    (middleware : gmap string (gmap string (json -> json)))
    (log_is_function : bool) (depth : nat)
    (w0 w : WebSocket) (code : Z) (reason : string) (s0 : State) :
  (forall l, ("close", l) ∉ ws_handlers w0) ->
  ws (this (connectWebSocket w0 s0).1.2) = Some w ->
  forall s : State,
    ws_emit JSON_parse middleware log_is_function depth w (Close code reason) s
    = (Normal tt, s, []).
Proof.
  intros Hnone Hw s. apply close_listeners_do_nothing.
  injection Hw as <-. simpl. intros l Hl.
  rewrite !elem_of_app, !list_elem_of_singleton in Hl.
  destruct Hl as [[[Hl|Hl]|Hl]|Hl]; [by apply Hnone in Hl|congruence..].
Qed.

(** ** [send], one call at a time *)

Section Send.

Variable middleware : gmap string (gmap string (json -> json)).

Lemma handler_for_registered (o : object) :
  handler_for middleware o
  = registered middleware (to_string (get o "_domain"))
                          (to_string (get o "_method")).
Proof. reflexivity. Qed.

(** What one call of [send] does, by cases on the channel, the
    argument and the registry. *)
Lemma send_unfold (depth : nat) (msg : ref) (s : State) :
  send middleware (S depth) msg s =
  match ws (this s) with
  | None => (Normal tt, s, [])
  | Some w =>
      match heap s !! msg with
      | None => (Throw TypeError, s, [])
      | Some o =>
          match handler_for middleware o with
          | Some handler =>
              after [Middleware (to_string (get o "_domain"))
                                (to_string (get o "_method"))
                                (get o "result")]
                    (send middleware depth (length (heap s))
                       {| this := this s;
                          heap := heap s ++ [[("id", get o "id");
                                              ("result", handler (get o "result"))]] |})
          | None =>
              (Normal tt,
               {| this := this s; heap := <[msg := stripped o]> (heap s) |},
               Log LogDebug ::
               match readyState w with
               | OPEN => [WsSend (JSON_stringify (stripped o))]
               | _ => []
               end)
          end
      end
  end.
Proof.
  cbn [send]. rewrite bind_get_this.
  destruct (ws (this s)) as [w|]; [|reflexivity].
  destruct (heap s !! msg) as [o|] eqn:Hmsg;
    [rewrite (bind_deref _ o) by done | by rewrite bind_deref_dangling].
  destruct (handler_for middleware o) as [handler|].
  - by rewrite bind_perform, bind_alloc.
  - rewrite (bind_mutate _ o) by done.
    assert (Hlt : (msg < length (heap s))%nat) by by eapply lookup_lt_Some.
    rewrite (bind_mutate _ (delete_prop o "_domain"))
      by (simpl; by apply list_lookup_insert_eq).
    simpl heap. rewrite list_insert_insert_eq.
    rewrite (bind_deref _ (stripped o))
      by (simpl; by apply list_lookup_insert_eq).
    rewrite bind_perform. unfold after, stripped.
    by destruct (readyState w).
Qed.

(** Sending an object that was just built, carries no private field and
    matches no handler: one call, which transmits it when the channel is
    open. *)
Lemma send_fresh_object (depth : nat) (o : object) (w : WebSocket) (s : State) :
  ws (this s) = Some w ->
  handler_for middleware o = None ->
  stripped o = o ->
  send middleware (S depth) (length (heap s))
       {| this := this s; heap := heap s ++ [o] |}
  = (Normal tt,
     {| this := this s; heap := heap s ++ [o] |},
     Log LogDebug ::
     match readyState w with
     | OPEN => [WsSend (JSON_stringify o)]
     | _ => []
     end).
Proof.
  intros Hws Hnone Hplain. rewrite send_unfold. simpl this. simpl heap.
  rewrite Hws, (list_lookup_middle (heap s) [] o) by done.
  rewrite Hnone, Hplain.
  by rewrite (list_insert_id _ _ o) by by apply list_lookup_middle.
Qed.

(** The object [send] builds for the output of a handler has no
    private field, and is looked up in the registry under the keys
    ["undefined"]/["undefined"]. *)
Lemma reply_is_plain (id result : json) :
  stripped [("id", id); ("result", result)] = [("id", id); ("result", result)] /\
  handler_for middleware [("id", id); ("result", result)]
  = registered middleware "undefined" "undefined".
Proof. split; reflexivity. Qed.

(** C10: [send] mutates its argument.  With a frontend WebSocket
    attached and no handler matching, the [_domain] and [_method]
    properties are deleted from the object the caller passed, whatever
    the readiness state: the call returns normally, the caller's
    reference then leads to the stripped object, and when the channel is
    not open nothing is transmitted. *)
Theorem send_strips_the_callers_object
    (depth : nat) (msg : ref) (o : object) (w : WebSocket) (s : State) :
  ws (this s) = Some w ->
  heap s !! msg = Some o ->
  handler_for middleware o = None ->
  exists t : list effect,
    send middleware (S depth) msg s
    = (Normal tt,
       {| this := this s; heap := <[msg := stripped o]> (heap s) |}, t) /\
    <[msg := stripped o]> (heap s) !! msg = Some (stripped o) /\
    ("_domain" ∉ keys (stripped o)) /\
    ("_method" ∉ keys (stripped o)) /\
    (readyState w <> OPEN -> wire t = []).
Proof.
  intros Hws Hmsg Hnone. eexists. split.
  { rewrite send_unfold, Hws, Hmsg, Hnone. reflexivity. }
  split; [apply list_lookup_insert_eq; by eapply lookup_lt_Some|].
  split; [apply stripped_has_no_private_fields|].
  split; [apply stripped_has_no_private_fields|].
  intros Hclosed. by destruct (readyState w).
Qed.

(** C7: when no frontend WebSocket is attached, or the attached one is
    not open, [send] of a message object returns normally and transmits
    nothing.  The registry is assumed to hold no handler under the keys
    ["undefined"]/["undefined"], which is what a message without
    [_domain]/[_method] is looked up with.  A depth of two calls is
    enough. *)
Theorem send_without_an_open_channel_transmits_nothing
    (depth : nat) (msg : ref) (s : State) :
  (ws (this s) = None \/
   exists w, ws (this s) = Some w /\ readyState w <> OPEN) ->
  is_Some (heap s !! msg) ->
  registered middleware "undefined" "undefined" = None ->
  exists (s' : State) (t : list effect),
    send middleware (S (S depth)) msg s = (Normal tt, s', t) /\
    wire t = [].
Proof.
  intros Hchannel [o Hmsg] Hsane. rewrite send_unfold.
  destruct Hchannel as [Hws|(w & Hws & Hclosed)]; rewrite Hws.
  { by exists s, []. }
  rewrite Hmsg. destruct (handler_for middleware o) as [handler|].
  - destruct (reply_is_plain (get o "id") (handler (get o "result")))
      as [Hplain Hkeys].
    rewrite (send_fresh_object depth _ w s Hws); [|congruence|exact Hplain].
    eexists _, _. split; [reflexivity|]. by destruct (readyState w).
  - eexists _, _. split; [reflexivity|]. by destruct (readyState w).
Qed.

(** C9, as amended: with a frontend WebSocket attached, a message whose
    [_domain]/[_method] pair has a registered handler makes [send] run
    that handler once, build [{id, result}] from its output with the
    id of the message, and send that object through one nested call,
    which matches no handler and transmits it when the channel is open.
    Two calls deep is all it takes.  The registry is assumed to hold no
    handler under the keys ["undefined"]/["undefined"]. *)
Theorem registered_handler_runs_once
    (depth : nat) (msg : ref) (o : object) (handler : json -> json)
    (w : WebSocket) (s : State) :
  ws (this s) = Some w ->
  heap s !! msg = Some o ->
  handler_for middleware o = Some handler ->
  registered middleware "undefined" "undefined" = None ->
  let reply := [("id", get o "id"); ("result", handler (get o "result"))] in
  send middleware (S (S depth)) msg s
  = (Normal tt,
     {| this := this s; heap := heap s ++ [reply] |},
     Middleware (to_string (get o "_domain")) (to_string (get o "_method"))
                (get o "result")
     :: Log LogDebug
     :: match readyState w with
        | OPEN => [WsSend (JSON_stringify reply)]
        | _ => []
        end).
Proof.
  intros Hws Hmsg Hhandler Hsane reply.
  rewrite send_unfold, Hws, Hmsg, Hhandler.
  destruct (reply_is_plain (get o "id") (handler (get o "result")))
    as [Hplain Hkeys].
  rewrite (send_fresh_object depth _ w s Hws); [|congruence|exact Hplain].
  reflexivity.
Qed.

(** The nested call is really made: a budget of a single call is used up. *)
Lemma registered_handler_needs_the_nested_call
    (msg : ref) (o : object) (handler : json -> json) (w : WebSocket) (s : State) :
  ws (this s) = Some w ->
  heap s !! msg = Some o ->
  handler_for middleware o = Some handler ->
  (send middleware 1 msg s).1.1 = Exhausted.
Proof.
  intros Hws Hmsg Hhandler. by rewrite send_unfold, Hws, Hmsg, Hhandler.
Qed.

Lemma transmitted_data_is_stripped (depth : nat) :
  forall (msg : ref) (s : State) (data : string),
    WsSend data ∈ (send middleware depth msg s).2 -> public_payload data.
Proof.
  induction depth as [|depth IH]; intros msg s data Hsent.
  { simpl in Hsent. inversion Hsent. }
  rewrite send_unfold in Hsent.
  destruct (ws (this s)) as [w|]; [|inversion Hsent].
  destruct (heap s !! msg) as [o|]; [|inversion Hsent].
  destruct (handler_for middleware o) as [handler|].
  - unfold after in Hsent. simpl in Hsent.
    apply elem_of_cons in Hsent as [Hsent|Hsent]; [discriminate|].
    by apply IH in Hsent.
  - simpl in Hsent.
    apply elem_of_cons in Hsent as [Hsent|Hsent]; [discriminate|].
    destruct (readyState w); try (by inversion Hsent).
    apply list_elem_of_singleton in Hsent. injection Hsent as ->.
    exists (stripped o). split; [reflexivity|].
    apply stripped_has_no_private_fields.
Qed.

(** C5: whatever [send] transmits on the frontend WebSocket is the
    serialisation of an object that has neither a [_domain] nor a
    [_method] property; and a message [{id, result, _domain, _method}]
    that matches no handler is transmitted, on an open channel, as the
    serialisation of [{id, result}] and nothing else. *)
Theorem wire_payload_has_no_private_fields :
  (forall (depth : nat) (msg : ref) (s : State) (data : string),
      WsSend data ∈ (send middleware depth msg s).2 ->
      exists o : object,
        data = JSON_stringify o /\
        ("_domain" ∉ keys o) /\ ("_method" ∉ keys o)) /\
  (forall (depth : nat) (msg : ref) (s : State) (w : WebSocket)
          (id result d m : json),
      ws (this s) = Some w ->
      readyState w = OPEN ->
      heap s !! msg
      = Some [("id", id); ("result", result); ("_domain", d); ("_method", m)] ->
      handler_for middleware
        [("id", id); ("result", result); ("_domain", d); ("_method", m)] = None ->
      wire (send middleware (S depth) msg s).2
      = [JSON_stringify [("id", id); ("result", result)]]).
Proof.
  split; [intros depth; apply transmitted_data_is_stripped|].
  intros depth msg s w id result d m Hws Hopen Hmsg Hnone.
  by rewrite send_unfold, Hws, Hmsg, Hnone, Hopen.
Qed.

(** Why the registry must hold nothing under ["undefined"]/["undefined"]:
    if it does, a message without private fields matches that handler,
    and so does every object built from its output; no budget of calls
    is enough. *)
Lemma send_never_returns_with_an_undefined_handler
    (handler : json -> json) (depth : nat) :
  registered middleware "undefined" "undefined" = Some handler ->
  forall (msg : ref) (o : object) (w : WebSocket) (s : State),
    ws (this s) = Some w ->
    heap s !! msg = Some o ->
    "_domain" ∉ keys o ->
    "_method" ∉ keys o ->
    (send middleware depth msg s).1.1 = Exhausted.
Proof.
  intros Hreg. induction depth as [|depth IH]; intros msg o w s Hws Hmsg Hd Hm.
  { reflexivity. }
  rewrite send_unfold, Hws, Hmsg, handler_for_registered.
  rewrite (get_absent _ _ Hd), (get_absent _ _ Hm). simpl to_string.
  rewrite Hreg. unfold after. simpl.
  eapply (IH _ _ w); simpl; [exact Hws | by apply list_lookup_middle | |].
  - unfold keys. simpl. by intros [?|[?|?%elem_of_nil]%elem_of_cons]%elem_of_cons.
  - unfold keys. simpl. by intros [?|[?|?%elem_of_nil]%elem_of_cons]%elem_of_cons.
Qed.

End Send.

(** Counterexample to C9 as stated: without a frontend WebSocket, a
    message whose pair has a registered handler is dropped before the
    registry is looked at: the handler is not run and no message is built
    from its output. *)
Lemma handler_is_not_run_without_a_channel :
  handler_for Sample.one_handler Sample.cookies_result = Some Sample.wrap /\
  send Sample.one_handler 2 0%nat
       (Sample.holding Sample.cookies_result
          (Sample.with_domains [] Sample.fresh_page))
  = (Normal tt,
     Sample.holding Sample.cookies_result
       (Sample.with_domains [] Sample.fresh_page),
     []).
Proof. split; by vm_compute. Qed.

(** With [Sample.undefined_handler] as the registry, a plain [{id: 1}]
    sent to a closed channel uses up every budget of calls. *)
Lemma send_never_returns_on_the_sample (depth : nat) :
  (send Sample.undefined_handler depth 0%nat
        (Sample.holding [("id", JNum 1)] (Sample.attached CLOSED []))).1.1
  = Exhausted.
Proof.
  apply (send_never_returns_with_an_undefined_handler
           Sample.undefined_handler Sample.wrap depth eq_refl
           0%nat [("id", JNum 1)] (Sample.frontend CLOSED));
    try reflexivity.
  - unfold keys. simpl. by intros [?|?%elem_of_nil]%elem_of_cons.
  - unfold keys. simpl. by intros [?|?%elem_of_nil]%elem_of_cons.
Qed.

Lemma send_strips_the_callers_object_witness :
  exists t : list effect,
    send Sample.no_middleware 1 0%nat
         (Sample.holding Sample.private_result (Sample.attached CLOSED []))
    = (Normal tt,
       Sample.holding [("id", JNum 5); ("result", JObj [("ok", JBool true)])]
         (Sample.attached CLOSED []),
       t) /\
    wire t = [].
Proof.
  destruct (send_strips_the_callers_object Sample.no_middleware 0 0%nat
              Sample.private_result (Sample.frontend CLOSED)
              (Sample.holding Sample.private_result (Sample.attached CLOSED []))
              eq_refl eq_refl eq_refl)
    as (t & Hrun & _ & _ & _ & Hdropped).
  exists t. split; [exact Hrun|]. apply Hdropped. discriminate.
Defined.

Lemma send_without_an_open_channel_transmits_nothing_witness :
  exists (s' : State) (t : list effect),
    send Sample.one_handler 2 0%nat
         (Sample.holding Sample.cookies_result (Sample.attached CLOSING []))
    = (Normal tt, s', t) /\
    wire t = [].
Proof.
  apply (send_without_an_open_channel_transmits_nothing
           Sample.one_handler 0 0%nat
           (Sample.holding Sample.cookies_result (Sample.attached CLOSING []))).
  - right. exists (Sample.frontend CLOSING). split; [reflexivity | discriminate].
  - eexists. reflexivity.
  - reflexivity.
Defined.

Lemma registered_handler_runs_once_witness :
  send Sample.one_handler 2 0%nat
       (Sample.holding Sample.cookies_result (Sample.attached OPEN []))
  = (Normal tt,
     {| this := this (Sample.attached OPEN []);
        heap := [Sample.cookies_result;
                 [("id", JNum 9); ("result", Sample.wrap (JArr []))]] |},
     [Middleware "Network" "getCookies" (JArr []);
      Log LogDebug;
      WsSend (JSON_stringify [("id", JNum 9); ("result", Sample.wrap (JArr []))])]).
Proof.
  apply (registered_handler_runs_once Sample.one_handler 0 0%nat
           Sample.cookies_result Sample.wrap (Sample.frontend OPEN)
           (Sample.holding Sample.cookies_result (Sample.attached OPEN []))).
  - reflexivity.
  - reflexivity.
  - reflexivity.
  - reflexivity.
Defined.

Lemma wire_payload_has_no_private_fields_witness :
  (exists o : object,
      JSON_stringify [("id", JNum 5); ("result", JObj [("ok", JBool true)])]
      = JSON_stringify o /\
      ("_domain" ∉ keys o) /\ ("_method" ∉ keys o)) /\
  wire (send Sample.no_middleware 1 0%nat
          (Sample.holding Sample.private_result (Sample.attached OPEN []))).2
  = [JSON_stringify [("id", JNum 5); ("result", JObj [("ok", JBool true)])]].
Proof.
  destruct (wire_payload_has_no_private_fields Sample.no_middleware)
    as [Hall Hone].
  split.
  - apply (Hall 1%nat 0%nat
             (Sample.holding Sample.private_result (Sample.attached OPEN []))).
    right. left.
  - apply (Hone 0%nat 0%nat
             (Sample.holding Sample.private_result (Sample.attached OPEN []))
             (Sample.frontend OPEN) (JNum 5) (JObj [("ok", JBool true)])
             (JStr "X") (JStr "Y")); reflexivity.
Defined.

(** ** [handleIncomming], by cases on the request *)

Section Incoming.

Variable JSON_parse : string -> option json.
Variable middleware : gmap string (gmap string (json -> json)).
Variable log_is_function : bool.

(** A text frame is handled as the object it decodes to. *)
Lemma handleIncomming_carried (depth : nat) (payload : json) (msg : object)
    (s : State) :
  carries JSON_parse payload msg ->
  handleIncomming JSON_parse middleware log_is_function depth payload s
  = handleIncomming JSON_parse middleware log_is_function depth (JObj msg) s.
Proof.
  intros [->|(text & -> & Hparse)]; [reflexivity|].
  unfold handleIncomming. by rewrite Hparse.
Qed.

Lemma isDomainSupported_name (name : string) (s : State) :
  isDomainSupported (JStr name) s
  = (Normal (includes (domains (this s)) name), s, []).
Proof. unfold isDomainSupported. by rewrite bind_get_this. Qed.

Lemma isDomainSupported_message (msg : object) (full : string) (s : State) :
  get msg "method" = JStr full ->
  isDomainSupported (JObj msg) s
  = (Normal (includes (domains (this s)) (domain_of full)), s, []).
Proof.
  intros Hm. unfold isDomainSupported. rewrite bind_get_this.
  unfold prop, property. rewrite bind_unit, Hm.
  by destruct full as [|c rest].
Qed.

Lemma handleIncomming_unfold (depth : nat) (msg : object) (full : string)
    (s : State) :
  get msg "method" = JStr full ->
  handleIncomming JSON_parse middleware log_is_function depth (JObj msg) s =
  if String.eqb (method_of full) "enable"
     && includes (domains (this s)) (domain_of full)
  then
    (enable log_is_function (Domain (domain_of full)) ;;
     fresh <- alloc [("id", get msg "id"); ("params", JObj [])] ;;
     send middleware depth fresh) s
  else if String.eqb (method_of full) "disable" then
    (disable (domain_of full) ;;
     perform (Emit (JObj [("id", get msg "id"); ("params", JObj [])]) [])) s
  else if includes (domains (this s)) (domain_of full) then
    (Normal tt, s,
     [Emit (JStr "incomming")
        [JObj [("method", JStr (method_of full));
               ("domain", JStr (domain_of full));
               ("msg", JObj msg)]]])
  else (Normal tt, s, []).
Proof.
  intros Hm. unfold handleIncomming.
  rewrite bind_unit. unfold prop at 1. rewrite bind_unit.
  unfold property at 1. rewrite Hm.
  rewrite (bind_pure _ _ _ _ (isDomainSupported_name _ s)).
  fold (domain_of full). fold (method_of full). unfold property.
  destruct (String.eqb (method_of full) "enable"
            && includes (domains (this s)) (domain_of full)); [reflexivity|].
  destruct (String.eqb (method_of full) "disable"); [reflexivity|].
  rewrite (bind_pure _ _ _ _ (isDomainSupported_message msg full s Hm)).
  by destruct (includes (domains (this s)) (domain_of full)).
Qed.

(** C4: a request whose method is neither [enable] nor [disable] and
    whose domain is not enabled is dropped: [handleIncomming] returns
    normally, performs no effect at all (no notification, nothing sent,
    no log line) and leaves the state as it was. *)
Theorem request_for_a_domain_not_enabled_is_dropped
    (depth : nat) (payload : json) (msg : object) (full : string) (s : State) :
  carries JSON_parse payload msg ->
  get msg "method" = JStr full ->
  method_of full <> "enable" ->
  method_of full <> "disable" ->
  domain_of full ∉ domains (this s) ->
  handleIncomming JSON_parse middleware log_is_function depth payload s
  = (Normal tt, s, []).
Proof.
  intros Hcarried Hm Hen Hdis Hdom.
  rewrite (handleIncomming_carried _ _ _ _ Hcarried).
  rewrite (handleIncomming_unfold _ _ _ _ Hm).
  apply String.eqb_neq in Hen, Hdis. apply includes_false in Hdom.
  by rewrite Hen, Hdis, Hdom.
Qed.

(** A request whose method half is [disable], whatever its domain half. *)
Lemma disable_request_runs (depth : nat) (msg : object) (full : string) (s : State) :
  get msg "method" = JStr full ->
  method_of full = "disable" ->
  handleIncomming JSON_parse middleware log_is_function depth (JObj msg) s
  = (Normal tt,
     (disable (domain_of full) s).1.2,
     [Log LogInfo;
      Emit (JObj [("id", get msg "id"); ("params", JObj [])]) []]).
Proof.
  intros Hm Hdis. rewrite (handleIncomming_unfold _ _ _ _ Hm), Hdis.
  simpl (String.eqb _ _). simpl andb. cbv iota.
  unfold bind. by rewrite disable_run.
Qed.

(** What a request [{id, method: "<D>.disable"}], with no dot in [D],
    does: [handleIncomming] returns normally, the state is the one
    [disable(D)] leaves, in which [D] is not enabled, and the effects are
    the log line of [disable] and one [emit] whose event name is the
    object [{id, params: {}}] and which has no argument; there is no
    ['incomming'] notification and nothing is sent to the frontend. *)
Theorem disable_request_is_applied_and_signalled
    (depth : nat) (payload : json) (msg : object) (D : string) (s : State) :
  carries JSON_parse payload msg ->
  get msg "method" = JStr (D +:+ ".disable") ->
  indexOf D "." = -1 ->
  NoDup (domains (this s)) ->
  handleIncomming JSON_parse middleware log_is_function depth payload s
  = (Normal tt,
     (disable D s).1.2,
     [Log LogInfo;
      Emit (JObj [("id", get msg "id"); ("params", JObj [])]) []]) /\
  D ∉ domains (this (disable D s).1.2).
Proof.
  intros Hcarried Hm HD Hnd.
  destruct (dotted_method_name D "disable" HD) as [Hdomain Hmethod].
  change (D +:+ ".disable") with (D +:+ "." +:+ "disable") in Hm.
  rewrite (handleIncomming_carried _ _ _ _ Hcarried).
  rewrite (disable_request_runs _ _ _ _ Hm Hmethod), Hdomain.
  split; [reflexivity | by apply disable_NoDup].
Qed.

(** X4: an [enable] request for a domain that is not enabled is not
    acknowledged: it falls through to the check of the enabled domains
    and is dropped there. *)
Lemma enable_request_for_a_domain_not_enabled_is_dropped
    (depth : nat) (payload : json) (msg : object) (full : string) (s : State) :
  carries JSON_parse payload msg ->
  get msg "method" = JStr full ->
  method_of full = "enable" ->
  domain_of full ∉ domains (this s) ->
  handleIncomming JSON_parse middleware log_is_function depth payload s
  = (Normal tt, s, []).
Proof.
  intros Hcarried Hm Hen Hdom.
  rewrite (handleIncomming_carried _ _ _ _ Hcarried).
  rewrite (handleIncomming_unfold _ _ _ _ Hm), Hen.
  apply includes_false in Hdom. by rewrite Hdom.
Qed.

End Incoming.

(** An [enable] request for a domain that is enabled, on an open channel. *)
Lemma enable_request_runs
    (JSON_parse : string -> option json)
    (middleware : gmap string (gmap string (json -> json)))
    (depth : nat) (msg : object) (full : string) (w : WebSocket) (s : State) :
  get msg "method" = JStr full ->
  method_of full = "enable" ->
  domain_of full ∈ domains (this s) ->
  ws (this s) = Some w ->
  readyState w = OPEN ->
  registered middleware "undefined" "undefined" = None ->
  handleIncomming JSON_parse middleware true (S depth) (JObj msg) s
  = (Normal tt,
     {| this := this s;
        heap := heap s ++ [[("id", get msg "id"); ("params", JObj [])]] |},
     [Log LogDirect; Log LogDebug;
      WsSend (JSON_stringify [("id", get msg "id"); ("params", JObj [])])]).
Proof.
  intros Hm Hen Hdom Hws Hopen Hsane.
  rewrite (handleIncomming_unfold _ _ _ _ _ _ _ Hm).
  rewrite Hen. apply includes_spec in Hdom as Hincl. rewrite Hincl.
  simpl (String.eqb _ _). simpl andb. cbv iota. simpl enable.
  rewrite (bind_normal _ _ _ _ _ _ (enable_domain_present true _ _ Hdom)).
  rewrite bind_alloc, (send_fresh_object middleware depth _ w s Hws);
    [by rewrite Hopen | exact Hsane | reflexivity].
Qed.

(** The same request when the logger is an object that cannot be called:
    the already-enabled branch of [enable] throws, and nothing is sent. *)
Lemma enable_request_throws_when_the_logger_is_not_callable
    (JSON_parse : string -> option json)
    (middleware : gmap string (gmap string (json -> json)))
    (depth : nat) (msg : object) (full : string) (s : State) :
  get msg "method" = JStr full ->
  method_of full = "enable" ->
  domain_of full ∈ domains (this s) ->
  handleIncomming JSON_parse middleware false depth (JObj msg) s
  = (Throw TypeError, s, []).
Proof.
  intros Hm Hen Hdom.
  rewrite (handleIncomming_unfold _ _ _ _ _ _ _ Hm).
  rewrite Hen. apply includes_spec in Hdom as Hincl. rewrite Hincl.
  simpl (String.eqb _ _). simpl andb. cbv iota. simpl enable.
  unfold bind at 1. by rewrite (enable_domain_present false _ _ Hdom).
Qed.

(** C2, as amended: a request [{id, method: "<D>.enable"}], with no dot
    in [D], for a domain [D] that is enabled already, handled while the
    frontend WebSocket is attached and open, leaves the page as it was,
    [D] still enabled, and transmits exactly one message, the
    serialisation of [{id, params: {}}] with the id of the request.  The
    logger is taken to be callable and the registry to hold no handler
    under the keys ["undefined"]/["undefined"]. *)
Theorem enable_request_is_acknowledged_with_params
    (JSON_parse : string -> option json)
    (middleware : gmap string (gmap string (json -> json)))
    (depth : nat) (payload : json) (msg : object) (D : string)
    (w : WebSocket) (s : State) :
  carries JSON_parse payload msg ->
  get msg "method" = JStr (D +:+ ".enable") ->
  indexOf D "." = -1 ->
  D ∈ domains (this s) ->
  ws (this s) = Some w ->
  readyState w = OPEN ->
  registered middleware "undefined" "undefined" = None ->
  let ack := [("id", get msg "id"); ("params", JObj [])] in
  handleIncomming JSON_parse middleware true (S depth) payload s
  = (Normal tt,
     {| this := this s; heap := heap s ++ [ack] |},
     [Log LogDirect; Log LogDebug; WsSend (JSON_stringify ack)]).
Proof.
  intros Hcarried Hm HD Hdom Hws Hopen Hsane ack.
  destruct (dotted_method_name D "enable" HD) as [Hdomain Hmethod].
  change (D +:+ ".enable") with (D +:+ "." +:+ "enable") in Hm.
  rewrite (handleIncomming_carried _ _ _ _ _ _ _ Hcarried).
  apply (enable_request_runs _ _ _ _ _ w _ Hm Hmethod); try done.
  by rewrite Hdomain.
Qed.

(** Counterexample to C2 as stated: with ["Network"] enabled and the
    frontend WebSocket open, the request
    [{id: 1, method: "Network.enable"}] is answered with
    [{id: 1, params: {}}], which is not [{id: 1, result: {}}]; and with no
    frontend WebSocket attached it is not answered at all. *)
Lemma enable_ack_carries_params_not_result :
  wire (handleIncomming Sample.no_parse Sample.no_middleware true 1
          (JObj Sample.enable_request)
          (Sample.attached OPEN Sample.three_domains)).2
  = [JSON_stringify [("id", JNum 1); ("params", JObj [])]] /\
  JSON_stringify [("id", JNum 1); ("params", JObj [])]
  <> JSON_stringify [("id", JNum 1); ("result", JObj [])] /\
  wire (handleIncomming Sample.no_parse Sample.no_middleware true 1
          (JObj Sample.enable_request)
          (Sample.with_domains Sample.three_domains Sample.fresh_page)).2
  = [].
Proof.
  split; [by vm_compute|]. split; [|by vm_compute].
  intros H. vm_compute in H. discriminate H.
Qed.

Lemma request_for_a_domain_not_enabled_is_dropped_witness :
  handleIncomming Sample.no_parse Sample.no_middleware true 0
    (JObj Sample.loadingFinished) (Sample.with_domains [] Sample.fresh_page)
  = (Normal tt, Sample.with_domains [] Sample.fresh_page, []).
Proof.
  apply (request_for_a_domain_not_enabled_is_dropped
           Sample.no_parse Sample.no_middleware true 0
           (JObj Sample.loadingFinished) Sample.loadingFinished
           "Network.loadingFinished").
  - left. reflexivity.
  - reflexivity.
  - intros H. vm_compute in H. discriminate H.
  - intros H. vm_compute in H. discriminate H.
  - apply includes_false. reflexivity.
Defined.

(** C8: a [<D>.disable] request is meant to be answered with the id of
    the request.  With ["Page"] and ["Network"] enabled and the frontend
    WebSocket open, [{id: 7, method: "Page.disable"}] disables ["Page"]
    and raises no ['incomming'] notification, but its completion signal is
    [this.emit({id: 7, params: {}})]: the object stands where the event
    name goes, which the emitter reads as ["[object Object]"], and no
    argument carries the id to a listener; nothing is transmitted to the
    frontend.  The [enable] request next to it is answered with
    [this.send], and its acknowledgment does go out. *)
Theorem disable_request_is_answered_to_no_one :
  handleIncomming Sample.no_parse Sample.no_middleware true 1
    (JObj Sample.disable_request) (Sample.attached OPEN ["Page"; "Network"])
  = (Normal tt,
     Sample.attached OPEN ["Network"],
     [Log LogInfo; Emit (JObj [("id", JNum 7); ("params", JObj [])]) []]) /\
  to_string (JObj [("id", JNum 7); ("params", JObj [])]) = "[object Object]" /\
  wire (handleIncomming Sample.no_parse Sample.no_middleware true 1
          (JObj Sample.disable_request)
          (Sample.attached OPEN ["Page"; "Network"])).2
  = [] /\
  wire (handleIncomming Sample.no_parse Sample.no_middleware true 1
          (JObj Sample.enable_request)
          (Sample.attached OPEN ["Page"; "Network"])).2
  = [JSON_stringify [("id", JNum 1); ("params", JObj [])]].
Proof. repeat split; by vm_compute. Qed.

Lemma disable_request_is_applied_and_signalled_witness :
  handleIncomming Sample.no_parse Sample.no_middleware true 0
    (JObj Sample.disable_request)
    (Sample.with_domains Sample.three_domains Sample.fresh_page)
  = (Normal tt,
     Sample.with_domains ["Network"] Sample.fresh_page,
     [Log LogInfo; Emit (JObj [("id", JNum 7); ("params", JObj [])]) []]).
Proof.
  apply (disable_request_is_applied_and_signalled
           Sample.no_parse Sample.no_middleware true 0
           (JObj Sample.disable_request) Sample.disable_request "Page").
  - left. reflexivity.
  - reflexivity.
  - reflexivity.
  - apply (bool_decide_unpack _). reflexivity.
Defined.

Lemma enable_request_is_acknowledged_with_params_witness :
  handleIncomming Sample.no_parse Sample.no_middleware true 1
    (JObj Sample.enable_request) (Sample.attached OPEN Sample.three_domains)
  = (Normal tt,
     {| this := this (Sample.attached OPEN Sample.three_domains);
        heap := [[("id", JNum 1); ("params", JObj [])]] |},
     [Log LogDirect; Log LogDebug;
      WsSend (JSON_stringify [("id", JNum 1); ("params", JObj [])])]).
Proof.
  apply (enable_request_is_acknowledged_with_params
           Sample.no_parse Sample.no_middleware 0
           (JObj Sample.enable_request) Sample.enable_request "Network"
           (Sample.frontend OPEN) (Sample.attached OPEN Sample.three_domains)).
  - left. reflexivity.
  - reflexivity.
  - reflexivity.
  - left.
  - reflexivity.
  - reflexivity.
  - reflexivity.
Defined.

(** ** The page over time *)

(** *** The list of domains *)

Lemma keeps_ret {A} (I : Page -> Prop) (a : A) : keeps I (ret a).
Proof. by intros s. Qed.

Lemma keeps_throw {A} (I : Page -> Prop) (e : error) : keeps I (@throw A e).
Proof. by intros s. Qed.

Lemma keeps_exhausted {A} (I : Page -> Prop) : keeps I (@exhausted A).
Proof. by intros s. Qed.

Lemma keeps_perform (I : Page -> Prop) (e : effect) : keeps I (perform e).
Proof. by intros s. Qed.

Lemma keeps_get_this (I : Page -> Prop) : keeps I get_this.
Proof. by intros s. Qed.

Lemma keeps_alloc (I : Page -> Prop) (o : object) : keeps I (alloc o).
Proof. by intros s. Qed.

Lemma keeps_prop (I : Page -> Prop) (v : json) (k : string) : keeps I (prop v k).
Proof. intros s. by destruct v. Qed.

Lemma keeps_update_this (I : Page -> Prop) (f : Page -> Page) :
  (forall p, I p -> I (f p)) -> keeps I (update_this f).
Proof. intros Hf s. apply Hf. Qed.

Lemma keeps_bind {A B} (I : Page -> Prop) (m : M A) (k : A -> M B) :
  keeps I m -> (forall a, keeps I (k a)) -> keeps I (bind m k).
Proof.
  intros Hm Hk s Hs. unfold bind. specialize (Hm s Hs).
  destruct (m s) as [[[a| |] s1] t1]; simpl in *; [|done..].
  specialize (Hk a s1 Hm). by destruct (k a s1) as [[r s2] t2].
Qed.

Lemma keeps_forEach {A} (I : Page -> Prop) (l : list A) (f : A -> M unit) :
  Forall (fun x => keeps I (f x)) l -> keeps I (forEach l f).
Proof.
  unfold forEach. induction 1 as [|x l Hx Hl IH]; [apply keeps_ret|].
  apply keeps_bind; [exact Hx | intros _; exact IH].
Qed.

Create HintDb keeps.

#[local] Hint Resolve keeps_ret keeps_throw keeps_exhausted keeps_perform
  keeps_get_this keeps_alloc keeps_prop : keeps.

(** Break a method body down to the primitives it is made of. *)
Ltac keeps_body :=
  repeat match goal with
    | |- keeps _ (bind _ _) => apply keeps_bind; [|intros ?]
    | |- keeps _ (match ?x with _ => _ end) => destruct x
    | |- keeps _ (update_this _) => apply keeps_update_this; intros ? ?
    end;
  auto with keeps.

(** An induction principle that reaches inside the arrays of a
    [domain_arg]. *)
Lemma domain_arg_nested_ind (P : domain_arg -> Prop) :
  (forall name, P (Domain name)) ->
  (forall elems, Forall P elems -> P (Domains elems)) ->
  forall d, P d.
Proof.
  intros Hname Helems. fix IH 1. intros [name|elems]; [apply Hname|].
  apply Helems. induction elems as [|d elems IHelems]; constructor.
  - apply IH.
  - exact IHelems.
Qed.

(** [send] reads [this] and never writes it. *)
Lemma send_this (middleware : gmap string (gmap string (json -> json)))
    (depth : nat) :
  forall (msg : ref) (s : State), this (send middleware depth msg s).1.2 = this s.
Proof.
  induction depth as [|depth IH]; intros msg s; [reflexivity|].
  rewrite send_unfold.
  destruct (ws (this s)) as [w|]; [|reflexivity].
  destruct (heap s !! msg) as [o|]; [|reflexivity].
  destruct (handler_for middleware o) as [handler|]; [|reflexivity].
  unfold after. simpl. by rewrite IH.
Qed.

Lemma keeps_send (I : Page -> Prop)
    (middleware : gmap string (gmap string (json -> json)))
    (depth : nat) (msg : ref) :
  keeps I (send middleware depth msg).
Proof. intros s Hs. by rewrite send_this. Qed.

#[local] Hint Resolve keeps_send : keeps.

Section Invariant.

Variable JSON_parse : string -> option json.
Variable middleware : gmap string (gmap string (json -> json)).
Variable log_is_function : bool.

Lemma keeps_enable_domain (name : string) :
  keeps unique_domains (enable_domain log_is_function name).
Proof. intros s. apply enable_domain_NoDup. Qed.

Lemma keeps_enable (domain : domain_arg) :
  keeps unique_domains (enable log_is_function domain).
Proof.
  induction domain as [name|elems IH] using domain_arg_nested_ind.
  - apply keeps_enable_domain.
  - simpl. apply keeps_forEach, IH.
Qed.

Lemma keeps_disable (domain : string) : keeps unique_domains (disable domain).
Proof. intros s Hs. by apply disable_NoDup. Qed.

#[local] Hint Resolve keeps_enable keeps_disable : keeps.

Lemma keeps_isDomainSupported (msg : json) : keeps unique_domains (isDomainSupported msg).
Proof. unfold isDomainSupported. keeps_body. Qed.

#[local] Hint Resolve keeps_isDomainSupported : keeps.

Lemma keeps_handleIncomming (depth : nat) (payload : json) :
  keeps unique_domains
    (handleIncomming JSON_parse middleware log_is_function depth payload).
Proof. unfold handleIncomming. keeps_body. Qed.

#[local] Hint Resolve keeps_handleIncomming : keeps.

Lemma keeps_ws_emit (depth : nat) (w : WebSocket) (ev : ws_event) :
  keeps unique_domains (ws_emit JSON_parse middleware log_is_function depth w ev).
Proof.
  unfold ws_emit. apply keeps_forEach, Forall_forall. intros [name l] _.
  unfold call_listener. keeps_body.
Qed.

#[local] Hint Resolve keeps_ws_emit : keeps.

Lemma keeps_act (depth : nat) (a : action) :
  keeps unique_domains (act JSON_parse middleware log_is_function depth a).
Proof.
  destruct a; unfold act, connect, disconnect, connectWebSocket,
    disconnectWebSocket; keeps_body.
Qed.

(** X16: whatever happened to a page since it was constructed (any
    sequence of method calls, requests and WebSocket notifications, also
    ones that threw), no domain is listed twice in [this.domains]. *)
Lemma reachable_NoDup (s : State) :
  reachable JSON_parse middleware log_is_function s -> NoDup (domains (this s)).
Proof.
  induction 1 as [io uuid|s depth a _ IH].
  - apply NoDup_nil_2.
  - by apply keeps_act.
Qed.

End Invariant.

(** *** What the page transmits *)

Lemma transmits_only_silent {A} (Q : string -> Prop) (m : M A) :
  (forall s, (m s).2 = []) -> transmits_only Q m.
Proof. intros Hm s data. rewrite Hm. inversion 1. Qed.

Lemma transmits_only_perform (Q : string -> Prop) (e : effect) :
  (forall data, e = WsSend data -> Q data) -> transmits_only Q (perform e).
Proof.
  intros He s data Hsent. apply list_elem_of_singleton in Hsent. by apply He.
Qed.

Lemma transmits_only_bind {A B} (Q : string -> Prop) (m : M A) (k : A -> M B) :
  transmits_only Q m -> (forall a, transmits_only Q (k a)) ->
  transmits_only Q (bind m k).
Proof.
  intros Hm Hk s data. unfold bind. specialize (Hm s data).
  destruct (m s) as [[[a| |] s1] t1]; simpl in *; [|done..].
  specialize (Hk a s1 data). destruct (k a s1) as [[r s2] t2]. simpl in *.
  rewrite elem_of_app. intros [H|H]; auto.
Qed.

Lemma transmits_only_forEach {A} (Q : string -> Prop) (l : list A) (f : A -> M unit) :
  Forall (fun x => transmits_only Q (f x)) l -> transmits_only Q (forEach l f).
Proof.
  unfold forEach. induction 1 as [|x l Hx Hl IH].
  - by apply transmits_only_silent.
  - apply transmits_only_bind; [exact Hx | intros _; exact IH].
Qed.

Lemma transmits_only_prop (Q : string -> Prop) (v : json) (k : string) :
  transmits_only Q (prop v k).
Proof. apply transmits_only_silent. intros s. by destruct v. Qed.

Lemma transmits_only_send
    (middleware : gmap string (gmap string (json -> json)))
    (depth : nat) (msg : ref) :
  transmits_only public_payload (send middleware depth msg).
Proof. intros s data. apply transmitted_data_is_stripped. Qed.

Create HintDb transmits.

#[local] Hint Resolve transmits_only_prop transmits_only_send : transmits.

(** Break a method body down, as [keeps_body] does. *)
Ltac transmits_body :=
  repeat match goal with
    | |- transmits_only _ (bind _ _) => apply transmits_only_bind; [|intros ?]
    | |- transmits_only _ (match ?x with _ => _ end) => destruct x
    | |- transmits_only _ (perform _) =>
        apply transmits_only_perform; intros ? ?; discriminate
    | |- transmits_only _ (ret _) => by apply transmits_only_silent
    | |- transmits_only _ (throw _) => by apply transmits_only_silent
    | |- transmits_only _ get_this => by apply transmits_only_silent
    | |- transmits_only _ (alloc _) => by apply transmits_only_silent
    | |- transmits_only _ (update_this _) => by apply transmits_only_silent
    end;
  auto with transmits.

Section Transmissions.

Variable JSON_parse : string -> option json.
Variable middleware : gmap string (gmap string (json -> json)).
Variable log_is_function : bool.

Lemma transmits_only_enable (domain : domain_arg) :
  transmits_only public_payload (enable log_is_function domain).
Proof.
  induction domain as [name|elems IH] using domain_arg_nested_ind.
  - simpl. unfold enable_domain, log_direct. transmits_body.
  - simpl. apply transmits_only_forEach, IH.
Qed.

Lemma transmits_only_disable (domain : string) :
  transmits_only public_payload (disable domain).
Proof. unfold disable. transmits_body. Qed.

Lemma transmits_only_isDomainSupported (msg : json) :
  transmits_only public_payload (isDomainSupported msg).
Proof. unfold isDomainSupported. transmits_body. Qed.

#[local] Hint Resolve transmits_only_enable transmits_only_disable
  transmits_only_isDomainSupported : transmits.

Lemma transmits_only_handleIncomming (depth : nat) (payload : json) :
  transmits_only public_payload
    (handleIncomming JSON_parse middleware log_is_function depth payload).
Proof. unfold handleIncomming. transmits_body. Qed.

#[local] Hint Resolve transmits_only_handleIncomming : transmits.

Lemma transmits_only_ws_emit (depth : nat) (w : WebSocket) (ev : ws_event) :
  transmits_only public_payload
    (ws_emit JSON_parse middleware log_is_function depth w ev).
Proof.
  unfold ws_emit. apply transmits_only_forEach, Forall_forall. intros [name l] _.
  unfold call_listener. transmits_body.
Qed.

#[local] Hint Resolve transmits_only_ws_emit : transmits.

(** X17: whatever happens to a page, what it transmits on the frontend
    WebSocket is the serialisation of an object without [_domain] and
    [_method]: [send] is the only method that transmits. *)
Lemma page_transmits_only_public_payloads
    (depth : nat) (a : action) (s : State) (data : string) :
  WsSend data ∈ (act JSON_parse middleware log_is_function depth a s).2 ->
  public_payload data.
Proof.
  revert s data. change (transmits_only public_payload
                           (act JSON_parse middleware log_is_function depth a)).
  destruct a; unfold act, connect, disconnect, connectWebSocket,
    disconnectWebSocket; transmits_body.
Qed.

End Transmissions.

(** ** Further properties of [handleIncomming] and [isDomainSupported] *)

(** X1: a method name ["<D>.<m>"] in which [D] has no dot is cut into
    the domain [D] and the method [m]; [m] may have dots of its own. *)
Theorem method_name_is_cut_at_the_first_dot (D m : string) :
  indexOf D "." = -1 ->
  domain_of (D +:+ "." +:+ m) = D /\ method_of (D +:+ "." +:+ m) = m.
Proof. apply dotted_method_name. Qed.

Lemma method_name_is_cut_at_the_first_dot_witness :
  domain_of "Network.emulate.conditions" = "Network" /\
  method_of "Network.emulate.conditions" = "emulate.conditions".
Proof.
  apply (method_name_is_cut_at_the_first_dot "Network" "emulate.conditions").
  reflexivity.
Defined.

(** X2: a method name without any dot is not rejected: the method is the
    whole name and the domain is the name without its last character. *)
Theorem method_name_without_a_dot (full : string) :
  indexOf full "." = -1 ->
  method_of full = full /\
  domain_of full = substring 0 (String.length full - 1) full.
Proof.
  intros Hnone. unfold method_of, domain_of, slice_from, slice, clamp.
  rewrite Hnone. change (-1 + 1) with 0. change (-1 <? 0) with true.
  change (0 <? 0) with false. cbv iota.
  set (len := Z.of_nat (String.length full)).
  destruct (Z.ltb_spec len 0) as [?|_]; [lia|].
  replace (Z.to_nat (Z.min 0 len)) with 0%nat by lia.
  split.
  - replace (Z.to_nat _) with (String.length full) by lia.
    apply substring_whole.
  - f_equal. lia.
Qed.

Lemma method_name_without_a_dot_witness :
  method_of "disable" = "disable" /\ domain_of "disable" = "disabl".
Proof. apply (method_name_without_a_dot "disable"). reflexivity. Defined.

Section Requests.

Variable JSON_parse : string -> option json.
Variable middleware : gmap string (gmap string (json -> json)).
Variable log_is_function : bool.

(** X3: a request for an enabled domain whose method is neither [enable]
    nor [disable] is forwarded: [handleIncomming] returns normally, leaves
    the state as it was, and its only effect is one ['incomming']
    notification carrying the method, the domain and the message. *)
Theorem request_for_an_enabled_domain_is_forwarded
    (depth : nat) (payload : json) (msg : object) (full : string) (s : State) :
  carries JSON_parse payload msg ->
  get msg "method" = JStr full ->
  method_of full <> "enable" ->
  method_of full <> "disable" ->
  domain_of full ∈ domains (this s) ->
  handleIncomming JSON_parse middleware log_is_function depth payload s
  = (Normal tt, s,
     [Emit (JStr "incomming")
        [JObj [("method", JStr (method_of full));
               ("domain", JStr (domain_of full));
               ("msg", JObj msg)]]]).
Proof.
  intros Hcarried Hm Hen Hdis Hdom.
  rewrite (handleIncomming_carried _ _ _ _ _ _ _ Hcarried).
  rewrite (handleIncomming_unfold _ _ _ _ _ _ _ Hm).
  apply String.eqb_neq in Hen, Hdis. apply includes_spec in Hdom.
  by rewrite Hen, Hdis, Hdom.
Qed.

(** X5: what is not a request makes [handleIncomming] throw before it
    does anything: text that [JSON.parse] rejects throws a [SyntaxError];
    an [undefined] or [null] payload, and a message without a [method],
    throw a [TypeError].  The state is unchanged and there is no effect. *)
Theorem malformed_payload_throws (depth : nat) (payload : json) (s : State) :
  (forall text, payload = JStr text -> JSON_parse text = None ->
     handleIncomming JSON_parse middleware log_is_function depth payload s
     = (Throw SyntaxError, s, [])) /\
  (payload = JUndefined \/ payload = JNull \/
   (exists msg, carries JSON_parse payload msg /\ get msg "method" = JUndefined) ->
   handleIncomming JSON_parse middleware log_is_function depth payload s
   = (Throw TypeError, s, [])).
Proof.
  split.
  - intros text -> Hparse. unfold handleIncomming. by rewrite Hparse.
  - intros [->|[->|(msg & Hcarried & Hm)]]; [reflexivity..|].
    rewrite (handleIncomming_carried _ _ _ _ _ _ _ Hcarried).
    unfold handleIncomming. rewrite bind_unit. unfold prop at 1.
    rewrite bind_unit. unfold property. by rewrite Hm.
Qed.

(** X6: [isDomainSupported] gives the same answer for a message
    [{method: "<D>.<m>"}] as for the bare domain name [D] (no dot in
    [D]): whether [D] is in [this.domains]; it changes nothing. *)
Theorem isDomainSupported_of_a_message
    (msg : object) (D m : string) (s : State) :
  get msg "method" = JStr (D +:+ "." +:+ m) ->
  indexOf D "." = -1 ->
  isDomainSupported (JObj msg) s = isDomainSupported (JStr D) s /\
  isDomainSupported (JStr D) s = (Normal (bool_decide (D ∈ domains (this s))), s, []).
Proof.
  intros Hm HD. destruct (dotted_method_name D m HD) as [Hdomain _].
  rewrite (isDomainSupported_message msg _ s Hm), Hdomain, isDomainSupported_name.
  split; [reflexivity|]. do 2 f_equal. f_equal.
  destruct (includes (domains (this s)) D) eqn:Hincl.
  - apply includes_spec in Hincl. by rewrite bool_decide_eq_true_2.
  - apply includes_false in Hincl. by rewrite bool_decide_eq_false_2.
Qed.

End Requests.

(** ** Further properties of [send] *)

(** X7: [send] writes no field of the page, and no message object other
    than the one it is handed: every other object of the store is as it
    was, whatever the registry, the depth and the completion. *)
Theorem send_leaves_the_rest_alone
    (middleware : gmap string (gmap string (json -> json))) (depth : nat) :
  forall (msg : ref) (s : State),
    this (send middleware depth msg s).1.2 = this s /\
    (forall r : ref, r <> msg -> (r < length (heap s))%nat ->
       heap (send middleware depth msg s).1.2 !! r = heap s !! r).
Proof.
  induction depth as [|depth IH]; intros msg s; [by split|].
  rewrite send_unfold.
  destruct (ws (this s)) as [w|]; [|by split].
  destruct (heap s !! msg) as [o|]; [|by split].
  destruct (handler_for middleware o) as [handler|].
  - unfold after. simpl.
    set (s1 := {| this := this s; heap := heap s ++ _ |}).
    destruct (IH (length (heap s)) s1) as [Hthis Hheap].
    split; [exact Hthis|]. intros r Hne Hlt.
    rewrite Hheap; [|lia|].
    + simpl. by apply lookup_app_l.
    + simpl. rewrite length_app. lia.
  - simpl. split; [reflexivity|]. intros r Hne _.
    by apply list_lookup_insert_ne.
Qed.

(** ** Further properties of [enable] and [disable] *)

Lemma bind_run {A B} (m : M A) (k : A -> M B) (s : State) :
  bind m k s =
  match m s with
  | (Normal a, s1, t1) => after t1 (k a s1)
  | (Throw e, s1, t1) => (Throw e, s1, t1)
  | (Exhausted, s1, t1) => (Exhausted, s1, t1)
  end.
Proof.
  unfold bind, after. destruct (m s) as [[[a|e|] s1] t1]; [|reflexivity..].
  by destruct (k a s1) as [[r s2] t2].
Qed.

Lemma notifications_app (t1 t2 : list effect) :
  notifications (t1 ++ t2) = notifications t1 ++ notifications t2.
Proof. apply omap_app. Qed.

(** X9: [enable] only appends.  For a domain or an array of them,
    whether it returns or throws, [this.domains] afterwards is the list
    before followed by the domains it added, nothing else of the state
    changes, and its notifications are one ['domainEnabled'] per added
    domain, in the same order. *)
Theorem enable_appends_and_announces (log_is_function : bool) (domain : domain_arg) :
  forall s : State,
  exists added : list string,
    (enable log_is_function domain s).1.2
    = {| this := set_domains (domains (this s) ++ added) (this s);
         heap := heap s |} /\
    notifications (enable log_is_function domain s).2
    = map (fun d => (JStr "domainEnabled", [JStr d])) added.
Proof.
  induction domain as [name|elems IH] using domain_arg_nested_ind; intros s.
  - simpl. destruct (decide (name ∈ domains (this s))) as [Hin|Hout].
    + exists []. rewrite (enable_domain_present _ _ _ Hin), app_nil_r.
      rewrite set_domains_same, state_eta. by destruct log_is_function.
    + exists [name]. by rewrite (enable_domain_absent _ _ _ Hout).
  - simpl. unfold forEach. revert s.
    induction IH as [|d elems Hd _ IHelems]; intros s.
    + exists []. simpl. by rewrite app_nil_r, set_domains_same, state_eta.
    + destruct (Hd s) as (added1 & Hs1 & Ht1).
      rewrite bind_run.
      destruct (enable log_is_function d s) as [[c s1] t1]. simpl in Hs1, Ht1.
      destruct c as [[]| |]; [|by exists added1..].
      destruct (IHelems s1) as (added2 & Hs2 & Ht2).
      exists (added1 ++ added2). unfold after. simpl.
      rewrite Hs2, notifications_app, Ht1, Ht2, map_app, app_assoc.
      subst s1. simpl. split; [|reflexivity]. by destruct (this s).
Qed.

(** X10: right after [enable(D)], [isDomainSupported(D)] answers true,
    whether [D] was enabled before or not and whatever the logger. *)
Theorem enabled_domain_is_supported (log_is_function : bool) (D : string) (s : State) :
  let after_enable := (enable log_is_function (Domain D) s).1.2 in
  isDomainSupported (JStr D) after_enable = (Normal true, after_enable, []).
Proof.
  cbn zeta. rewrite isDomainSupported_name. do 2 f_equal. f_equal.
  apply includes_spec. simpl enable.
  destruct (decide (D ∈ domains (this s))) as [Hin|Hout].
  - rewrite (enable_domain_present _ _ _ Hin). by destruct log_is_function.
  - rewrite (enable_domain_absent _ _ _ Hout). simpl.
    apply elem_of_app. right. left.
Qed.

(** X11: what [disable] does to the list.  A domain that is not enabled
    leaves everything as it was; a domain whose first occurrence is at
    position [n] takes the [n + 1] entries from that position on out of
    the list (as many as there are), and the entries before and after
    that run stay in order. *)
Theorem disable_removes_a_run (d : string) (s : State) :
  (d ∉ domains (this s) -> disable d s = (Normal tt, s, [Log LogInfo])) /\
  (forall n : nat,
      domains (this s) !! n = Some d ->
      d ∉ take n (domains (this s)) ->
      disable d s
      = (Normal tt,
         {| this := set_domains (take n (domains (this s))
                                 ++ drop (2 * n + 1) (domains (this s))) (this s);
            heap := heap s |},
         [Log LogInfo])).
Proof.
  split; [apply disable_absent|].
  intros n Hlook Hfirst.
  assert (Hin : d ∈ domains (this s)) by (apply list_elem_of_lookup; eauto).
  destruct (indexOf_from_present 0 _ _ Hin) as (n' & Hidx & Hlook' & Hfirst').
  assert (n' = n) as ->.
  { destruct (Nat.lt_trichotomy n' n) as [Hlt|[Heq|Hgt]]; [|exact Heq|].
    - exfalso. apply Hfirst. apply elem_of_take. eauto.
    - exfalso. apply Hfirst'. apply elem_of_take. eauto. }
  rewrite disable_run. unfold array_indexOf. rewrite Hidx, Z.add_0_l.
  rewrite splice_pos_pos_plus_one; [reflexivity|].
  by apply lookup_lt_Some in Hlook.
Qed.

Lemma disable_removes_a_run_witness :
  disable "Page" (Sample.with_domains ["Network"; "Page"; "CSS"; "DOM"; "Log"]
                    Sample.fresh_page)
  = (Normal tt,
     Sample.with_domains ["Network"; "DOM"; "Log"] Sample.fresh_page,
     [Log LogInfo]).
Proof.
  apply (proj2 (disable_removes_a_run "Page"
                  (Sample.with_domains ["Network"; "Page"; "CSS"; "DOM"; "Log"]
                     Sample.fresh_page)) 1%nat).
  - reflexivity.
  - apply includes_false. reflexivity.
Defined.

Lemma take_drop_sublist {A} (l : list A) (n m : nat) :
  (n <= m)%nat -> take n l ++ drop m l `sublist_of` l.
Proof.
  intros Hle. rewrite <- (take_drop n l) at 3.
  apply sublist_app; [reflexivity|].
  replace m with (n + (m - n))%nat by lia.
  rewrite <- drop_drop. apply sublist_drop.
Qed.

Lemma splice_sublist {A} (l : list A) (start deleteCount : Z) :
  splice l start deleteCount `sublist_of` l.
Proof.
  unfold splice, clamp. apply take_drop_sublist.
  destruct (Z.ltb_spec start 0); lia.
Qed.

(** X12: a request never enables anything.  Whatever the payload and
    however [handleIncomming] completes, the page afterwards differs from
    the page before at most in [this.domains], and the list afterwards is
    the list before with some entries taken out. *)
Theorem handleIncomming_never_enables
    (JSON_parse : string -> option json)
    (middleware : gmap string (gmap string (json -> json)))
    (log_is_function : bool) (depth : nat) (payload : json) (s : State) :
  exists ds : list string,
    this (handleIncomming JSON_parse middleware log_is_function depth payload s).1.2
    = set_domains ds (this s) /\
    ds `sublist_of` domains (this s).
Proof.
  assert (Hsame : forall (c : completion unit) (h : list object) (t : list effect),
             exists ds : list string,
               this (c, {| this := this s; heap := h |}, t).1.2
               = set_domains ds (this s) /\
               ds `sublist_of` domains (this s)).
  { intros c h t. exists (domains (this s)). by rewrite set_domains_same. }
  assert (Hobject : forall msg : json,
             (forall text, msg <> JStr text) ->
             exists ds : list string,
               this (handleIncomming JSON_parse middleware log_is_function
                       depth msg s).1.2
               = set_domains ds (this s) /\
               ds `sublist_of` domains (this s)).
  { intros msg Hmsg.
    destruct msg as [| |b|n|text|elems|o];
      try (rewrite <- (state_eta s); apply Hsame);
      [by destruct (Hmsg text)|].
    destruct (get o "method") as [| |b|n|full|elems|o'] eqn:Hm;
      try (unfold handleIncomming; rewrite bind_unit; unfold prop at 1;
           rewrite bind_unit; unfold property at 1; rewrite Hm;
           rewrite <- (state_eta s); apply Hsame).
    rewrite (handleIncomming_unfold _ _ _ _ _ _ _ Hm).
    destruct (String.eqb (method_of full) "enable"
              && includes (domains (this s)) (domain_of full)) eqn:Hen.
    - apply andb_true_iff in Hen as [_ Hincl]. apply includes_spec in Hincl.
      simpl enable. rewrite bind_run, (enable_domain_present _ _ _ Hincl).
      destruct log_is_function; [|rewrite <- (state_eta s); apply Hsame].
      rewrite bind_alloc. unfold after. simpl.
      rewrite send_this. simpl.
      exists (domains (this s)). by rewrite set_domains_same.
    - destruct (String.eqb (method_of full) "disable").
      + rewrite bind_run, disable_run. unfold after. simpl.
        eexists. split; [reflexivity|]. apply splice_sublist.
      + destruct (includes (domains (this s)) (domain_of full));
          rewrite <- (state_eta s); apply Hsame. }
  destruct payload as [| |b|n|text|elems|o];
    try (apply Hobject; discriminate).
  destruct (JSON_parse text) as [v|] eqn:Hparse.
  - destruct v as [| |b|n|text'|elems|o];
      try (replace (handleIncomming JSON_parse middleware log_is_function depth
                      (JStr text) s)
             with (handleIncomming JSON_parse middleware log_is_function depth
                     (JObj o) s)
             by (unfold handleIncomming; by rewrite Hparse);
           apply Hobject; discriminate);
      unfold handleIncomming; rewrite Hparse;
      rewrite <- (state_eta s); apply Hsame.
  - unfold handleIncomming. rewrite Hparse.
    rewrite <- (state_eta s). apply Hsame.
Qed.

(** ** The device handshake *)

Lemma enable_names (log_is_function : bool) (names : list string) :
  forall s : State,
    log_is_function = true \/
    (NoDup names /\ forall d, d ∈ names -> d ∉ domains (this s)) ->
    (enable log_is_function (Domains (map Domain names)) s).1.1 = Normal tt /\
    (forall d, d ∈ domains (this s) \/ d ∈ names ->
       d ∈ domains (this (enable log_is_function (Domains (map Domain names)) s).1.2)).
Proof.
  simpl. unfold forEach.
  induction names as [|name names IH]; intros s Hcond.
  { split; [reflexivity|]. intros d [Hd|Hd]; [exact Hd | inversion Hd]. }
  rewrite map_cons, bind_run. simpl enable.
  assert (Hstep : exists s1 t1,
             enable_domain log_is_function name s = (Normal tt, s1, t1) /\
             (forall d, d ∈ domains (this s) \/ d = name -> d ∈ domains (this s1)) /\
             (forall d, d ∈ domains (this s1) -> d ∈ domains (this s) \/ d = name)).
  { destruct (decide (name ∈ domains (this s))) as [Hin|Hout].
    - rewrite (enable_domain_present _ _ _ Hin).
      destruct Hcond as [->|[_ Hfresh]]; [|by destruct (Hfresh name); [left|]].
      exists s, [Log LogDirect]. split; [reflexivity|].
      split; [intros d [Hd| ->]; done | by left].
    - rewrite (enable_domain_absent _ _ _ Hout).
      eexists _, _. split; [reflexivity|]. simpl.
      split; intros d; rewrite elem_of_app, list_elem_of_singleton; tauto. }
  destruct Hstep as (s1 & t1 & -> & Hgrow & Hfrom).
  destruct (IH s1) as [Hnormal Hall].
  { destruct Hcond as [Hlog|[Hnd Hfresh]]; [by left | right].
    apply NoDup_cons in Hnd as [Hname Hnd]. split; [exact Hnd|].
    intros d Hd Hd1. destruct (Hfrom d Hd1) as [Hs| ->].
    - apply (Hfresh d); [by right | exact Hs].
    - by apply Hname. }
  unfold after. simpl. split; [exact Hnormal|].
  intros d [Hd|Hd]; apply Hall.
  - left. apply Hgrow. by left.
  - apply elem_of_cons in Hd as [->|Hd]; [left; apply Hgrow; by right | by right].
Qed.

(** X13: the device handshake enables every supported domain it lists.
    When the logger is callable, or when the list has no repeats and
    none of its domains is enabled yet, the ['connection'] listener
    returns normally and afterwards each listed domain, and each domain
    enabled before, is in [this.domains]. *)
Theorem handshake_enables_the_supported_domains
    (log_is_function : bool) (status : string) (names : list string) (s : State) :
  log_is_function = true \/
  (NoDup names /\ forall d, d ∈ names -> d ∉ domains (this s)) ->
  let handshake :=
    device_connection_listener log_is_function status
      (Domains (map Domain names)) s in
  handshake.1.1 = Normal tt /\
  (forall d, d ∈ domains (this s) \/ d ∈ names ->
     d ∈ domains (this handshake.1.2)).
Proof.
  intros Hcond handshake. subst handshake.
  unfold device_connection_listener. rewrite bind_run.
  destruct (enable_names log_is_function names s Hcond) as [Hnormal Hall].
  destruct (enable log_is_function (Domains (map Domain names)) s)
    as [[c s1] t1].
  simpl in Hnormal, Hall. subst c. by split.
Qed.

Lemma handshake_enables_the_supported_domains_witness :
  domains (this (device_connection_listener false "ok"
                   (Domains (map Domain ["Network"; "Page"]))
                   (Sample.with_domains [] Sample.fresh_page)).1.2)
  = ["Network"; "Page"] /\
  "Page" ∈ domains (this (device_connection_listener false "ok"
                            (Domains (map Domain ["Network"; "Page"]))
                            (Sample.with_domains [] Sample.fresh_page)).1.2).
Proof.
  split; [reflexivity|].
  apply (handshake_enables_the_supported_domains false "ok" ["Network"; "Page"]
           (Sample.with_domains [] Sample.fresh_page)).
  - right. split.
    + apply (bool_decide_unpack _). reflexivity.
    + intros d _ Hd. inversion Hd.
  - right. right. left.
Defined.

(** ** Further properties of the frontend WebSocket notifications *)

Lemma filter_name_absent {L} (name : string) (hs : list (string * L)) :
  (forall l, (name, l) ∉ hs) -> filter (fun h => h.1 = name) hs = [].
Proof.
  induction hs as [|[n l] hs IH]; intros Hnone; [reflexivity|].
  rewrite filter_cons. simpl. destruct (decide (n = name)) as [->|Hne].
  - exfalso. apply (Hnone l). left.
  - apply IH. intros l' Hl'. apply (Hnone l'). by right.
Qed.

Lemma bind_ret_tt (m : M unit) (s : State) : bind m (fun _ => ret tt) s = m s.
Proof.
  rewrite bind_run. destruct (m s) as [[[[]|e|] s1] t1]; [|reflexivity..].
  unfold after, ret. simpl. by rewrite app_nil_r.
Qed.

Lemma bind_ret_ret {A B C} (m : M A) (b : B) (c : C) (s : State) :
  bind (bind m (fun _ => ret b)) (fun _ => ret c) s = bind m (fun _ => ret c) s.
Proof.
  rewrite !bind_run. destruct (m s) as [[[a|e|] s1] t1]; try reflexivity.
  unfold after, ret. simpl. by rewrite app_nil_r.
Qed.

Section Notifications.

Variable JSON_parse : string -> option json.
Variable middleware : gmap string (gmap string (json -> json)).
Variable log_is_function : bool.

(** X14: a ['message'] notification of a WebSocket that
    [connectWebSocket] was called with (and that had no ['message']
    listener before) does exactly what [handleIncomming] does with the
    frame, whether or not that WebSocket is still the attached one. *)
Theorem message_notification_runs_handleIncomming
    (depth : nat) (w0 w : WebSocket) (s0 s : State) (payload : json) :
  (forall l, ("message", l) ∉ ws_handlers w0) ->
  ws (this (connectWebSocket w0 s0).1.2) = Some w ->
  ws_emit JSON_parse middleware log_is_function depth w (Message payload) s
  = handleIncomming JSON_parse middleware log_is_function depth payload s.
Proof.
  intros Hnone Hw. injection Hw as <-. unfold ws_emit. simpl.
  rewrite !filter_app, (filter_name_absent "message" _ Hnone). simpl.
  unfold forEach, call_listener.
  by rewrite bind_ret_tt, bind_ret_ret, bind_ret_tt.
Qed.

(** X15: [connectWebSocket] does not mark the page connected, even when
    the WebSocket is open already; the ['open'] notification of that
    WebSocket does, and does nothing else. *)
Theorem open_notification_marks_the_page_connected
    (depth : nat) (w0 w : WebSocket) (s0 s : State) :
  (forall l, ("open", l) ∉ ws_handlers w0) ->
  ws (this (connectWebSocket w0 s0).1.2) = Some w ->
  isConnected (this (connectWebSocket w0 s0).1.2) = isConnected (this s0) /\
  ws_emit JSON_parse middleware log_is_function depth w Open s
  = (Normal tt,
     {| this := set_isConnected true (this s); heap := heap s |},
     []).
Proof.
  intros Hnone Hw. split; [reflexivity|].
  injection Hw as <-. unfold ws_emit. simpl.
  by rewrite !filter_app, (filter_name_absent "open" _ Hnone).
Qed.

End Notifications.

Lemma message_notification_runs_handleIncomming_witness :
  ws_emit Sample.no_parse Sample.no_middleware true 1
    (Sample.frontend OPEN) (Message (JObj Sample.disable_request))
    (Sample.with_domains Sample.three_domains Sample.fresh_page)
  = handleIncomming Sample.no_parse Sample.no_middleware true 1
      (JObj Sample.disable_request)
      (Sample.with_domains Sample.three_domains Sample.fresh_page).
Proof.
  apply (message_notification_runs_handleIncomming
           Sample.no_parse Sample.no_middleware true 1
           (mkWebSocket OPEN []) (Sample.frontend OPEN)
           (Sample.with_domains [] Sample.fresh_page)).
  - intros l Hl. inversion Hl.
  - reflexivity.
Defined.

Lemma open_notification_marks_the_page_connected_witness :
  isConnected (this (Sample.attached OPEN [])) = false /\
  isConnected (this (ws_emit Sample.no_parse Sample.no_middleware true 1
                       (Sample.frontend OPEN) Open (Sample.attached OPEN [])).1.2)
  = true.
Proof.
  destruct (open_notification_marks_the_page_connected
              Sample.no_parse Sample.no_middleware true 1
              (mkWebSocket OPEN []) (Sample.frontend OPEN)
              (Sample.with_domains [] Sample.fresh_page) (Sample.attached OPEN []))
    as [Hbefore Hafter].
  - intros l Hl. inversion Hl.
  - reflexivity.
  - split; [exact Hbefore | by rewrite Hafter].
Defined.

(** ** While no frontend WebSocket is attached *)

Lemma detached_ret {A} (a : A) : silent_while_detached (ret a).
Proof. by intros s Hs. Qed.

Lemma detached_throw {A} (e : error) : silent_while_detached (@throw A e).
Proof. by intros s Hs. Qed.

Lemma detached_get_this : silent_while_detached get_this.
Proof. by intros s Hs. Qed.

Lemma detached_alloc (o : object) : silent_while_detached (alloc o).
Proof. by intros s Hs. Qed.

Lemma detached_prop (v : json) (k : string) : silent_while_detached (prop v k).
Proof. intros s Hs. by destruct v. Qed.

Lemma detached_log (how : LogCall) : silent_while_detached (perform (Log how)).
Proof. by intros s Hs. Qed.

Lemma detached_emit (name : json) (args : list json) :
  silent_while_detached (perform (Emit name args)).
Proof. by intros s Hs. Qed.

Lemma detached_update_this (f : Page -> Page) :
  (forall p, ws p = None -> ws (f p) = None) ->
  silent_while_detached (update_this f).
Proof. intros Hf s Hs. split; [reflexivity | by apply Hf]. Qed.

Lemma detached_bind {A B} (m : M A) (k : A -> M B) :
  silent_while_detached m -> (forall a, silent_while_detached (k a)) ->
  silent_while_detached (bind m k).
Proof.
  intros Hm Hk s Hs. rewrite bind_run. destruct (Hm s Hs) as [Ht1 Hs1].
  destruct (m s) as [[[a|e|] s1] t1]; simpl in Ht1, Hs1; [|by split..].
  destruct (Hk a s1 Hs1) as [Ht2 Hs2]. unfold after, wire in *. simpl.
  by rewrite omap_app, Ht1, Ht2.
Qed.

Lemma detached_forEach {A} (l : list A) (f : A -> M unit) :
  Forall (fun x => silent_while_detached (f x)) l ->
  silent_while_detached (forEach l f).
Proof.
  unfold forEach. induction 1 as [|x l Hx Hl IH]; [apply detached_ret|].
  apply detached_bind; [exact Hx | intros _; exact IH].
Qed.

Lemma detached_send (middleware : gmap string (gmap string (json -> json)))
    (depth : nat) (msg : ref) :
  silent_while_detached (send middleware depth msg).
Proof.
  intros s Hs. destruct depth as [|depth]; [by split|].
  by rewrite send_unfold, Hs.
Qed.

Create HintDb detached.

#[local] Hint Resolve detached_ret detached_throw detached_get_this
  detached_alloc detached_prop detached_log detached_emit detached_send
  : detached.

Ltac detached_body :=
  repeat match goal with
    | |- silent_while_detached (bind _ _) => apply detached_bind; [|intros ?]
    | |- silent_while_detached (match ?x with _ => _ end) => destruct x
    | |- silent_while_detached (update_this _) =>
        apply detached_update_this; intros ? ?
    end;
  auto with detached.

Section Detached.

Variable JSON_parse : string -> option json.
Variable middleware : gmap string (gmap string (json -> json)).
Variable log_is_function : bool.

Lemma detached_enable (domain : domain_arg) :
  silent_while_detached (enable log_is_function domain).
Proof.
  induction domain as [name|elems IH] using domain_arg_nested_ind.
  - simpl. unfold enable_domain, log_direct. detached_body.
  - simpl. apply detached_forEach, IH.
Qed.

Lemma detached_disable (domain : string) : silent_while_detached (disable domain).
Proof. unfold disable. detached_body. Qed.

Lemma detached_isDomainSupported (msg : json) :
  silent_while_detached (isDomainSupported msg).
Proof. unfold isDomainSupported. detached_body. Qed.

#[local] Hint Resolve detached_enable detached_disable
  detached_isDomainSupported : detached.

Lemma detached_handleIncomming (depth : nat) (payload : json) :
  silent_while_detached
    (handleIncomming JSON_parse middleware log_is_function depth payload).
Proof. unfold handleIncomming. detached_body. Qed.

(** X8: nothing is transmitted while no frontend WebSocket is attached.
    Whatever is done to a page whose [this.ws] is absent (a method call,
    a device message, a request), no data goes out; and only
    [connectWebSocket] attaches a WebSocket. *)
Theorem nothing_is_transmitted_without_a_channel
    (depth : nat) (a : action) (s : State) :
  ws (this s) = None ->
  wire (act JSON_parse middleware log_is_function depth a s).2 = [] /\
  ((forall w, a <> CallConnectWebSocket w) ->
   ws (this (act JSON_parse middleware log_is_function depth a s).1.2) = None).
Proof.
  intros Hs. destruct a as [sock| |w| |domain|domain|payload|msg|ev|r].
  - by split.
  - by split.
  - split; [reflexivity|]. intros Hneq. by destruct (Hneq w).
  - by split.
  - destruct (detached_enable domain s Hs). by split.
  - by split.
  - destruct (detached_handleIncomming depth payload s Hs). by split.
  - simpl. rewrite bind_alloc.
    destruct (detached_send middleware depth (length (heap s))
                {| this := this s; heap := heap s ++ [msg] |} Hs).
    by split.
  - simpl. rewrite bind_get_this, Hs. by split.
  - simpl. unfold update_this. simpl. rewrite Hs. by split.
Qed.

End Detached.

Lemma nothing_is_transmitted_without_a_channel_witness :
  wire (act Sample.no_parse Sample.one_handler true 2
          (CallSend Sample.cookies_result)
          (Sample.with_domains Sample.three_domains Sample.fresh_page)).2
  = [].
Proof.
  apply (nothing_is_transmitted_without_a_channel
           Sample.no_parse Sample.one_handler true 2
           (CallSend Sample.cookies_result)
           (Sample.with_domains Sample.three_domains Sample.fresh_page)).
  reflexivity.
Defined.

(** ** The further properties at work on sample data *)

Lemma request_for_an_enabled_domain_is_forwarded_witness :
  handleIncomming Sample.no_parse Sample.no_middleware true 0
    (JObj Sample.loadingFinished)
    (Sample.with_domains Sample.three_domains Sample.fresh_page)
  = (Normal tt,
     Sample.with_domains Sample.three_domains Sample.fresh_page,
     [Emit (JStr "incomming")
        [JObj [("method", JStr "loadingFinished");
               ("domain", JStr "Network");
               ("msg", JObj Sample.loadingFinished)]]]).
Proof.
  apply (request_for_an_enabled_domain_is_forwarded
           Sample.no_parse Sample.no_middleware true 0
           (JObj Sample.loadingFinished) Sample.loadingFinished
           "Network.loadingFinished").
  - left. reflexivity.
  - reflexivity.
  - intros H. vm_compute in H. discriminate H.
  - intros H. vm_compute in H. discriminate H.
  - left.
Defined.

Lemma enable_request_for_a_domain_not_enabled_is_dropped_witness :
  handleIncomming Sample.no_parse Sample.no_middleware true 1
    (JObj Sample.enable_request) (Sample.attached OPEN [])
  = (Normal tt, Sample.attached OPEN [], []).
Proof.
  apply (enable_request_for_a_domain_not_enabled_is_dropped
           Sample.no_parse Sample.no_middleware true 1
           (JObj Sample.enable_request) Sample.enable_request "Network.enable").
  - left. reflexivity.
  - reflexivity.
  - reflexivity.
  - intros H. inversion H.
Defined.

Lemma malformed_payload_throws_witness :
  handleIncomming Sample.no_parse Sample.no_middleware true 1
    (JStr "{id: 1") (Sample.attached OPEN Sample.three_domains)
  = (Throw SyntaxError, Sample.attached OPEN Sample.three_domains, []) /\
  handleIncomming Sample.no_parse Sample.no_middleware true 1
    (JObj [("id", JNum 3)]) (Sample.attached OPEN Sample.three_domains)
  = (Throw TypeError, Sample.attached OPEN Sample.three_domains, []).
Proof.
  split.
  - apply (proj1 (malformed_payload_throws
                    Sample.no_parse Sample.no_middleware true 1
                    (JStr "{id: 1") (Sample.attached OPEN Sample.three_domains))
                 "{id: 1"); reflexivity.
  - apply (proj2 (malformed_payload_throws
                    Sample.no_parse Sample.no_middleware true 1
                    (JObj [("id", JNum 3)])
                    (Sample.attached OPEN Sample.three_domains))).
    right. right. exists [("id", JNum 3)]. split; [by left | reflexivity].
Defined.

Lemma isDomainSupported_of_a_message_witness :
  isDomainSupported (JObj Sample.loadingFinished)
    (Sample.with_domains Sample.three_domains Sample.fresh_page)
  = (Normal true, Sample.with_domains Sample.three_domains Sample.fresh_page, []).
Proof.
  destruct (isDomainSupported_of_a_message
              Sample.loadingFinished "Network" "loadingFinished"
              (Sample.with_domains Sample.three_domains Sample.fresh_page)
              eq_refl eq_refl) as [Hsame Hname].
  rewrite Hsame, Hname. reflexivity.
Defined.

Lemma send_leaves_the_rest_alone_witness :
  heap (send Sample.one_handler 2 1%nat
          {| this := this (Sample.attached OPEN []);
             heap := [Sample.private_result; Sample.cookies_result] |}).1.2 !! 0%nat
  = Some Sample.private_result.
Proof.
  apply (proj2 (send_leaves_the_rest_alone Sample.one_handler 2 1%nat
                  {| this := this (Sample.attached OPEN []);
                     heap := [Sample.private_result; Sample.cookies_result] |})
               0%nat).
  - discriminate.
  - simpl. lia.
Defined.

Lemma reachable_NoDup_witness :
  NoDup (domains (this
    (act Sample.no_parse Sample.no_middleware true 1
       (CallEnable (Domains [Domain "Network"; Domain "Page"; Domain "Network"]))
       {| this := new_Page (mkEmitter []) "page-1"; heap := [] |}).1.2)).
Proof.
  apply (reachable_NoDup Sample.no_parse Sample.no_middleware true).
  apply reachable_act. apply reachable_new.
Defined.

Lemma page_transmits_only_public_payloads_witness :
  public_payload (JSON_stringify [("id", JNum 1); ("params", JObj [])]).
Proof.
  apply (page_transmits_only_public_payloads
           Sample.no_parse Sample.no_middleware true 1
           (Notify (Message (JObj Sample.enable_request)))
           (Sample.attached OPEN Sample.three_domains)).
  right. right. left.
Defined.
